(** * Excel AI Analyzer: the session logic of [src/pages/Index.tsx]

    A shallow embedding of the [Index] component's state and handlers
    (file loading, chart projection, command execution, history, close),
    followed by the properties of the design document that concern them.

    Conventions.
    - A JavaScript string is held as the bytes of its UTF-8 encoding
      ([string]); every string the handlers build is a concatenation of
      source literals, inputs and decimal numerals, so the encoding is
      stable under the operations modelled here.
    - React state is a record; each [setX] is a field update, and the
      updates of one handler are applied together (React batches them).
    - The toast sink, the started [FileReader]s and the pending
      [setTimeout] callbacks are part of the state, so that "a
      notification was signalled" and "no decode was attempted" can be
      stated. *)

From Stdlib Require Import Ascii String.
From stdpp Require Import gmap strings list pretty sorting.

Local Open Scope string_scope.

(** ** Strings *)

Definition dquote : string := String "034"%char EmptyString.
Definition newline : string := String "010"%char EmptyString.

(** [s.endsWith(suffix)] *)
Definition endsWith (s suffix : string) : bool :=
  let n := String.length s in
  let k := String.length suffix in
  if decide (k ≤ n)%nat then bool_decide (substring (n - k) k s = suffix) else false.

(** ECMAScript [WhiteSpace] and [LineTerminator] code points, each as its
    UTF-8 encoding: U+0009..U+000D, U+0020, U+00A0, U+1680,
    U+2000..U+200A, U+2028, U+2029, U+202F, U+205F, U+3000, U+FEFF. *)
Definition bytes (l : list nat) : string :=
  fold_right (λ n s, String (ascii_of_nat n) s) EmptyString l.

Definition whiteSpace : list string :=
  bytes <$>
    [ [9]; [10]; [11]; [12]; [13]; [32];
      [194; 160];
      [225; 154; 128];
      [226; 128; 128]; [226; 128; 129]; [226; 128; 130]; [226; 128; 131];
      [226; 128; 132]; [226; 128; 133]; [226; 128; 134]; [226; 128; 135];
      [226; 128; 136]; [226; 128; 137]; [226; 128; 138];
      [226; 128; 168]; [226; 128; 169]; [226; 128; 175];
      [226; 129; 159];
      [227; 128; 128];
      [239; 187; 191] ].

(** [stripPrefix p s] is the rest of [s] after its prefix [p], if any. *)
Fixpoint stripPrefix (p s : string) : option string :=
  match p, s with
  | EmptyString, _ => Some s
  | String a p', String b s' => if decide (a = b) then stripPrefix p' s' else None
  | String _ _, EmptyString => None
  end.

(** Drop one leading white space character drawn from [ws]. *)
Fixpoint dropOne (ws : list string) (s : string) : option string :=
  match ws with
  | [] => None
  | w :: ws' =>
      match stripPrefix w s with
      | Some r => Some r
      | None => dropOne ws' s
      end
  end.

Fixpoint dropWhile (ws : list string) (fuel : nat) (s : string) : string :=
  match fuel with
  | 0 => s
  | S fuel' =>
      match dropOne ws s with
      | Some r => dropWhile ws fuel' r
      | None => s
      end
  end.

Definition trimStart (s : string) : string :=
  dropWhile whiteSpace (String.length s) s.

Definition trimEnd (s : string) : string :=
  String.rev (dropWhile (String.rev <$> whiteSpace) (String.length s) (String.rev s)).

(** [s.trim()] *)
Definition trim (s : string) : string := trimEnd (trimStart s).

(** Truthiness of a string: the empty string is the only falsy one. *)
Definition truthy (s : string) : bool := negb (bool_decide (s = "")).

(** [t] occurs in [s] (the proposition behind [s.includes(t)]). *)
Definition includes (s t : string) : Prop := ∃ p q, s = p +:+ t +:+ q.

(** [n.toString()] / template interpolation of an integral Number. *)
Definition nat_toString (n : nat) : string := pretty n.
Definition int_toString (z : Z) : string := pretty z.

(** ** Data model *)

Section Index.

(** The Number type (IEEE 754 doubles) and [Number.prototype.toString]
    stay uninterpreted: no handler computes with the number held by a
    cell; the code only asks whether a cell has type [number] and, for a
    header cell, takes its string form. *)
Variable num : Type.
Variable Number_toString : num → string.

(** A cell as [XLSX.utils.sheet_to_json(_, { header: 1 })] delivers it
    ([any]): a number, a string, a boolean, [null] or [undefined]. *)
Inductive cell : Type :=
  | CNumber (x : num)
  | CString (s : string)
  | CBoolean (b : bool)
  | CNull
  | CUndefined.

(** A row is a JavaScript array of cells; [None] is a hole (an index the
    array does not own), which [sheet_to_json] leaves for an empty cell. *)
Definition row : Type := list (option cell).

(** [interface ExcelData].  [headers] is declared [string[]], but the
    value stored is [jsonData[0]] under a cast, so it is a row. *)
Record ExcelData : Type := {
  headers : row;
  rows : list row;
}.

(** [interface CommandHistory] ([id], [command], [result], [timestamp]);
    the time stamp is the time value of the [Date], in milliseconds. *)
Record CommandHistory : Type := {
  entry_id : string;
  entry_command : string;
  entry_result : string;
  entry_timestamp : Z;
}.

(** The argument of [toast]; [variant] is absent or ['destructive']. *)
Record Toast : Type := {
  title : string;
  description : string;
  variant : option string;
}.

(** A [File]: the handlers read its [name]; its bytes reach the code only
    through [XLSX.read], whose outcome is an input of [reader_onload]. *)
Record File : Type := { file_name : string }.

(** The [useState] cells of [Index], then the environment: the toasts
    signalled so far (oldest first), the files handed to
    [readAsArrayBuffer] whose [onload] is still to run, and the pending
    [setTimeout] callbacks with the [command] and [excelData] their
    closure captured. *)
Record State : Type := {
  excelData : option ExcelData;
  fileName : string;
  isDragging : bool;
  command : string;
  commandHistory : list CommandHistory;
  isProcessing : bool;
  toasts : list Toast;
  readers : list File;
  timers : list (string * ExcelData);
}.

Definition initialState : State :=
  {| excelData := None; fileName := ""; isDragging := false; command := "";
     commandHistory := []; isProcessing := false;
     toasts := []; readers := []; timers := [] |}.

Definition setExcelData (v : option ExcelData) (s : State) : State :=
  {| excelData := v; fileName := fileName s; isDragging := isDragging s;
     command := command s; commandHistory := commandHistory s;
     isProcessing := isProcessing s;
     toasts := toasts s; readers := readers s; timers := timers s |}.

Definition setFileName (v : string) (s : State) : State :=
  {| excelData := excelData s; fileName := v; isDragging := isDragging s;
     command := command s; commandHistory := commandHistory s;
     isProcessing := isProcessing s;
     toasts := toasts s; readers := readers s; timers := timers s |}.

Definition setIsDragging (v : bool) (s : State) : State :=
  {| excelData := excelData s; fileName := fileName s; isDragging := v;
     command := command s; commandHistory := commandHistory s;
     isProcessing := isProcessing s;
     toasts := toasts s; readers := readers s; timers := timers s |}.

Definition setCommand (v : string) (s : State) : State :=
  {| excelData := excelData s; fileName := fileName s; isDragging := isDragging s;
     command := v; commandHistory := commandHistory s;
     isProcessing := isProcessing s;
     toasts := toasts s; readers := readers s; timers := timers s |}.

(** [setCommandHistory(prev => f prev)] *)
Definition setCommandHistory (f : list CommandHistory → list CommandHistory)
    (s : State) : State :=
  {| excelData := excelData s; fileName := fileName s; isDragging := isDragging s;
     command := command s; commandHistory := f (commandHistory s);
     isProcessing := isProcessing s;
     toasts := toasts s; readers := readers s; timers := timers s |}.

Definition setIsProcessing (v : bool) (s : State) : State :=
  {| excelData := excelData s; fileName := fileName s; isDragging := isDragging s;
     command := command s; commandHistory := commandHistory s;
     isProcessing := v;
     toasts := toasts s; readers := readers s; timers := timers s |}.

Definition toast (t : Toast) (s : State) : State :=
  {| excelData := excelData s; fileName := fileName s; isDragging := isDragging s;
     command := command s; commandHistory := commandHistory s;
     isProcessing := isProcessing s;
     toasts := toasts s ++ [t]; readers := readers s; timers := timers s |}.

Definition setReaders (v : list File) (s : State) : State :=
  {| excelData := excelData s; fileName := fileName s; isDragging := isDragging s;
     command := command s; commandHistory := commandHistory s;
     isProcessing := isProcessing s;
     toasts := toasts s; readers := v; timers := timers s |}.

Definition setTimers (v : list (string * ExcelData)) (s : State) : State :=
  {| excelData := excelData s; fileName := fileName s; isDragging := isDragging s;
     command := command s; commandHistory := commandHistory s;
     isProcessing := isProcessing s;
     toasts := toasts s; readers := readers s; timers := v |}.

(** ** Loading a file *)

Definition handleDragOver (s : State) : State := setIsDragging true s.
Definition handleDragLeave (s : State) : State := setIsDragging false s.

(** What the [try] block obtains from [XLSX.read] and [sheet_to_json]:
    either one of them throws, or [jsonData] is delivered.  The outer
    array is dense ([sheet_to_json] pushes one array per sheet row). *)
Inductive decoded : Type :=
  | Throws
  | JsonData (jsonData : list row).

Definition toastLoaded (file : File) : Toast :=
  {| title := "Файл загружен";
     description := file_name file +:+ " успешно обработан";
     variant := None |}.

Definition toastLoadFailed : Toast :=
  {| title := "Ошибка";
     description := "Не удалось обработать файл";
     variant := Some "destructive" |}.

(** [processExcelFile(file)]: creates the reader and starts the read. *)
Definition processExcelFile (file : File) (s : State) : State :=
  setReaders (readers s ++ [file]) s.

(** [reader.onload] of [processExcelFile(file)]. *)
Definition reader_onload (file : File) (d : decoded) (s : State) : State :=
  match d with
  | Throws => toast toastLoadFailed s
  | JsonData jsonData =>
      if decide (0 < length jsonData)%nat then
        let headers := default [] (jsonData !! 0%nat) in
        let rows := drop 1 jsonData in
        toast (toastLoaded file)
          (setFileName (file_name file)
             (setExcelData (Some {| headers := headers; rows := rows |}) s))
      else s
  end.

(** The oldest started read completes and its [onload] runs. *)
Definition readerLoads (d : decoded) (s : State) : State :=
  match readers s with
  | [] => s
  | file :: rest => reader_onload file d (setReaders rest s)
  end.

Definition isExcelName (f : File) : bool :=
  endsWith (file_name f) ".xlsx" || endsWith (file_name f) ".xls".

Definition toastNotExcel : Toast :=
  {| title := "Ошибка";
     description := "Пожалуйста, загрузите Excel файл";
     variant := Some "destructive" |}.

(** [handleDrop]; [files] is [Array.from(e.dataTransfer.files)]. *)
Definition handleDrop (files : list File) (s : State) : State :=
  let s := setIsDragging false s in
  match List.find isExcelName files with
  | Some excelFile => processExcelFile excelFile s
  | None => toast toastNotExcel s
  end.

(** [handleFileSelect]; [files] is [e.target.files]. *)
Definition handleFileSelect (files : list File) (s : State) : State :=
  match files !! 0%nat with
  | Some file => processExcelFile file s
  | None => s
  end.

(** The [onClick] of the close button. *)
Definition closeDataset (s : State) : State :=
  setCommandHistory (λ _, []) (setFileName "" (setExcelData None s)).

(** ** Commands and history *)

(** [ToString] of a cell. *)
Definition ToString (c : cell) : string :=
  match c with
  | CNumber x => Number_toString x
  | CString s => s
  | CBoolean b => if b then "true" else "false"
  | CNull => "null"
  | CUndefined => "undefined"
  end.

(** [a.join(sep)]: a hole, [undefined] and [null] contribute the empty
    string, any other element its [ToString]. *)
Definition joinItem (c : option cell) : string :=
  match c with
  | None | Some CUndefined | Some CNull => ""
  | Some c' => ToString c'
  end.

Definition join (a : row) (sep : string) : string :=
  String.concat sep (joinItem <$> a).

(** The template literal of [newEntry.result]. *)
Definition resultText (command : string) (excelData : ExcelData) : string :=
  "Анализирую команду: " +:+ dquote +:+ command +:+ dquote +:+ newline +:+ newline
  +:+ "Найдено " +:+ nat_toString (length (rows excelData)) +:+ " строк данных." +:+ newline
  +:+ "Колонки: " +:+ join (headers excelData) ", " +:+ newline +:+ newline
  +:+ "Для полной интеграации с AI подключите DeepSeek API.".

(** [newEntry]; [now_id] is what [Date.now()] returns and [now_ts] the
    time value of [new Date()]. *)
Definition newEntry (command : string) (excelData : ExcelData)
    (now_id now_ts : Z) : CommandHistory :=
  {| entry_id := int_toString now_id;
     entry_command := trim command;
     entry_result := resultText command excelData;
     entry_timestamp := now_ts |}.

Definition toastDone : Toast :=
  {| title := "Команда выполнена";
     description := "Результат добавлен в историю";
     variant := None |}.

(** [executeCommand]: the guard, the busy flag, and the registration of
    the callback, which closes over the current [command] and
    [excelData]. *)
Definition executeCommand (s : State) : State :=
  match excelData s with
  | None => s
  | Some d =>
      if negb (truthy (trim (command s))) then s
      else setTimers (timers s ++ [(command s, d)]) (setIsProcessing true s)
  end.

(** The callback handed to [setTimeout], with its captured variables. *)
Definition executeCommand_callback (command : string) (excelData : ExcelData)
    (now_id now_ts : Z) (s : State) : State :=
  let e := newEntry command excelData now_id now_ts in
  toast toastDone
    (setIsProcessing false
       (setCommand ""
          (setCommandHistory (λ prev, e :: prev) s))).

(** The oldest pending timer expires (all delays are 1000 ms). *)
Definition timerFires (now_id now_ts : Z) (s : State) : State :=
  match timers s with
  | [] => s
  | (c, d) :: rest => executeCommand_callback c d now_id now_ts (setTimers rest s)
  end.

(** One awaited execution: [c] is typed into the command field
    ([onChange]), submitted, and the timer expires at the clock readings
    [now_id], [now_ts]. *)
Definition runCommand (c : string) (now_id now_ts : Z) (s : State) : State :=
  timerFires now_id now_ts (executeCommand (setCommand c s)).

(** ** Chart data *)

Inductive jstype : Type := TNumber | TString | TBoolean | TObject | TUndefined.

Global Instance jstype_eq_dec : EqDecision jstype.
Proof. solve_decision. Defined.

(** [typeof value] *)
Definition typeof (c : cell) : jstype :=
  match c with
  | CNumber _ => TNumber
  | CString _ => TString
  | CBoolean _ => TBoolean
  | CNull => TObject
  | CUndefined => TUndefined
  end.

(** [row[i]]: [undefined] at a hole and past the end. *)
Definition get (r : row) (i : nat) : cell :=
  match r !! i with
  | Some (Some c) => c
  | _ => CUndefined
  end.

(** A chart point is an ordinary object; its own properties hold the
    label (a string) and cells of the row. *)

(** [obj[header] = value], for a primitive [value]: the property key is
    [ToString header]; the key [__proto__] reaches the setter inherited
    from [Object.prototype], which creates no own property, and every
    other key becomes (or overwrites) an own property. *)
Definition assign (obj : gmap string cell) (header : cell) (value : cell)
    : gmap string cell :=
  let key := ToString header in
  if decide (key = "__proto__") then obj else <[key := value]> obj.

(** [excelData.headers.forEach((header, i) => ...)] from index [i] on;
    [forEach] skips the holes of [headers]. *)
Fixpoint forEachHeader (hs : row) (i : nat) (r : row) (obj : gmap string cell)
    : gmap string cell :=
  match hs with
  | [] => obj
  | None :: hs' => forEachHeader hs' (S i) r obj
  | Some header :: hs' =>
      let value := get r i in
      let obj' :=
        if decide (typeof value = TNumber) then assign obj header value else obj in
      forEachHeader hs' (S i) r obj'
  end.

(** The callback of [map] in [getChartData]. *)
Definition chartPoint (hs : row) (index : nat) (r : row) : gmap string cell :=
  let obj : gmap string cell :=
    {[ "name" := CString ("Строка " +:+ nat_toString (index + 1)) ]} in
  forEachHeader hs 0 r obj.

Definition getChartData (excelData : option ExcelData) : list (gmap string cell) :=
  match excelData with
  | None => []
  | Some d =>
      if decide (length (rows d) = 0%nat) then []
      else imap (chartPoint (headers d)) (take 10 (rows d))
  end.

End Index.

Arguments CNumber {num} x.
Arguments CString {num} s.
Arguments CBoolean {num} b.
Arguments CNull {num}.
Arguments CUndefined {num}.
Arguments Throws {num}.
Arguments JsonData {num} jsonData.
Arguments headers {num} e.
Arguments rows {num} e.
Arguments excelData {num} s.
Arguments fileName {num} s.
Arguments isDragging {num} s.
Arguments command {num} s.
Arguments commandHistory {num} s.
Arguments isProcessing {num} s.
Arguments toasts {num} s.
Arguments readers {num} s.
Arguments timers {num} s.
Arguments initialState {num}.
Arguments closeDataset {num} s.
Arguments handleDrop {num} files s.
Arguments handleFileSelect {num} files s.
Arguments processExcelFile {num} file s.
Arguments reader_onload {num} file d s.
Arguments readerLoads {num} d s.
Arguments executeCommand {num} s.
Arguments executeCommand_callback {num} Number_toString command excelData now_id now_ts s.
Arguments timerFires {num} Number_toString now_id now_ts s.
Arguments runCommand {num} Number_toString c now_id now_ts s.
Arguments newEntry {num} Number_toString command excelData now_id now_ts.
Arguments resultText {num} Number_toString command excelData.
Arguments join {num} Number_toString a sep.
Arguments ToString {num} Number_toString c.
Arguments typeof {num} c.
Arguments assign {num} Number_toString obj header value.
Arguments forEachHeader {num} Number_toString hs i r obj.
Arguments get {num} r i.
Arguments chartPoint {num} Number_toString hs index r.
Arguments getChartData {num} Number_toString excelData.
Arguments setCommand {num} v s.
Arguments toast {num} t s.

Arguments setExcelData {num} v s.
Arguments setFileName {num} v s.
Arguments setIsDragging {num} v s.
Arguments setCommandHistory {num} f s.
Arguments setIsProcessing {num} v s.
Arguments setReaders {num} v s.
Arguments setTimers {num} v s.
Arguments handleDragOver {num} s.
Arguments handleDragLeave {num} s.

(** ** The session as a state machine

    What can happen to the component: the user's events, as far as the
    rendered view lets them reach a handler, and the two completions the
    environment delivers. *)

Section Session.

Context {num : Type} (Number_toString : num → string).

Inductive event : Type :=
  | DragOver
  | DragLeave
  | Drop (files : list File)
  | FileSelect (files : list File)
  | ReaderLoad (i : nat) (d : decoded num)
  | Change (text : string)
  | KeyDown (key : string)
  | Click
  | TimerExpires (now_id now_ts : Z)
  | Close.

(** [onChange] of the command input. *)
Definition handleChange (text : string) (s : State num) : State num :=
  setCommand text s.

(** [onKeyDown] of the command input: [e.key === 'Enter' && executeCommand()]. *)
Definition handleKeyDown (key : string) (s : State num) : State num :=
  if decide (key = "Enter") then executeCommand s else s.

(** The [i]-th started read completes (reads need not complete in the
    order they were started) and its [onload] runs. *)
Definition readerLoadsAt (i : nat) (d : decoded num) (s : State num) : State num :=
  match readers s !! i with
  | None => s
  | Some file => reader_onload file d (setReaders (delete i (readers s)) s)
  end.

(** [!excelData ? <drop zone and file input> : <table, charts, command
    line, history>]: which of the two views is rendered. *)
Definition workspaceShown (s : State num) : bool :=
  match excelData s with
  | Some _ => true
  | None => false
  end.

(** [disabled={isProcessing}] of the command input. *)
Definition inputDisabled (s : State num) : bool := isProcessing s.

(** [disabled={isProcessing || !command.trim()}] of the send button. *)
Definition buttonDisabled (s : State num) : bool :=
  isProcessing s || negb (truthy (trim (command s))).

(** An event reaches its handler when the element that carries the
    handler is rendered and not disabled; a completion needs something
    pending. *)
Definition enabled (e : event) (s : State num) : bool :=
  match e with
  | DragOver | DragLeave | Drop _ | FileSelect _ => negb (workspaceShown s)
  | Change _ | KeyDown _ => workspaceShown s && negb (inputDisabled s)
  | Click => workspaceShown s && negb (buttonDisabled s)
  | Close => workspaceShown s
  | ReaderLoad i _ => bool_decide (is_Some (readers s !! i))
  | TimerExpires _ _ => bool_decide (timers s ≠ [])
  end.

Definition handle (e : event) (s : State num) : State num :=
  match e with
  | DragOver => handleDragOver s
  | DragLeave => handleDragLeave s
  | Drop files => handleDrop files s
  | FileSelect files => handleFileSelect files s
  | ReaderLoad i d => readerLoadsAt i d s
  | Change text => handleChange text s
  | KeyDown key => handleKeyDown key s
  | Click => executeCommand s
  | TimerExpires now_id now_ts => timerFires Number_toString now_id now_ts s
  | Close => closeDataset s
  end.

Definition step (e : event) (s : State num) : State num :=
  if enabled e s then handle e s else s.

(** The state after a sequence of events, oldest first. *)
Definition run (es : list event) (s : State num) : State num :=
  foldl (λ s e, step e s) s es.

End Session.

Arguments event : clear implicits.
Arguments DragOver {num}.
Arguments DragLeave {num}.
Arguments Drop {num} files.
Arguments FileSelect {num} files.
Arguments Change {num} text.
Arguments KeyDown {num} key.
Arguments Click {num}.
Arguments TimerExpires {num} now_id now_ts.
Arguments Close {num}.

(** ** What the charts are given

    The expressions of the JSX that derive the series, the colours and
    the pie's key from [chartData]. *)

Definition COLORS : list string :=
  ["#9b87f5"; "#0EA5E9"; "#F97316"; "#10B981"; "#EC4899"].

(** The value of a decimal digit. *)
Definition digit (a : ascii) : option N :=
  let n := N_of_ascii a in
  if decide (48 ≤ n ≤ 57)%N then Some (n - 48)%N else None.

Fixpoint digits (s : string) (acc : N) : option N :=
  match s with
  | EmptyString => Some acc
  | String a s' =>
      match digit a with
      | Some v => digits s' (10 * acc + v)%N
      | None => None
      end
  end.

(** A property key is an array index when it is the canonical decimal
    numeral (no sign, no leading zero) of an integer below 2^32 - 1. *)
Definition arrayIndex (key : string) : option N :=
  match key with
  | EmptyString => None
  | String a rest =>
      if decide (a = "0"%char ∧ rest ≠ EmptyString) then None
      else
        match digits key 0 with
        | Some n => if decide (n < 2 ^ 32 - 1)%N then Some n else None
        | None => None
        end
  end.

Definition indexLe (k1 k2 : string) : Prop :=
  (default 0 (arrayIndex k1) ≤ default 0 (arrayIndex k2))%N.

Global Instance indexLe_dec : RelDecision indexLe.
Proof. intros k1 k2. unfold indexLe. apply _. Defined.

(** [Object.keys(obj)] of an ordinary object whose own string keys were
    created in the order [created]: the array indices in ascending
    numeric order, then the other keys in creation order. *)
Definition Object_keys (created : list string) : list string :=
  merge_sort indexLe (filter (λ k, is_Some (arrayIndex k)) created)
  ++ filter (λ k, ¬ is_Some (arrayIndex k)) created.

Section Render.

Context {num : Type} (Number_toString : num → string).

(** The creation order of the own keys under [obj[header] = value]
    (compare [assign]): a new key goes last, an existing key keeps its
    place, [__proto__] creates none. *)
Definition assignKey (created : list string) (header : cell num) : list string :=
  let key := ToString Number_toString header in
  if decide (key = "__proto__") then created
  else if decide (key ∈ created) then created
  else created ++ [key].

(** The own keys, in creation order, of the object [forEachHeader]
    builds from one whose keys are [created]. *)
Fixpoint forEachHeaderKeys (hs : row num) (i : nat) (r : row num)
    (created : list string) : list string :=
  match hs with
  | [] => created
  | None :: hs' => forEachHeaderKeys hs' (S i) r created
  | Some header :: hs' =>
      let value := get r i in
      let created' :=
        if decide (typeof value = TNumber) then assignKey created header else created in
      forEachHeaderKeys hs' (S i) r created'
  end.

(** The own keys of [chartPoint hs index r], in creation order. *)
Definition chartPointKeys (hs : row num) (r : row num) : list string :=
  forEachHeaderKeys hs 0 r ["name"].

(** [Object.keys(chartData[0])], where the charts are rendered at all
    ([chartData.length > 0 && ...]). *)
Definition firstPointKeys (excelData : option (ExcelData num)) : option (list string) :=
  match excelData with
  | None => None
  | Some d =>
      match rows d with
      | [] => None
      | r :: _ => Some (Object_keys (chartPointKeys (headers d) r))
      end
  end.

(** The [dataKey]s of the [Bar]s and of the [Line]s:
    [Object.keys(chartData[0]).filter(key => key !== 'name')]. *)
Definition seriesKeys (excelData : option (ExcelData num)) : list string :=
  match firstPointKeys excelData with
  | None => []
  | Some keys => filter (λ key, key ≠ "name") keys
  end.

(** [COLORS[i % COLORS.length]] *)
Definition color (i : nat) : option string := COLORS !! (i mod length COLORS)%nat.

(** Each series with its [fill] (bar chart) or [stroke] (line chart). *)
Definition series (excelData : option (ExcelData num)) : list (string * option string) :=
  imap (λ i key, (key, color i)) (seriesKeys excelData).

(** The [dataKey] of the [Pie]:
    [Object.keys(chartData[0]).find(k => k !== 'name') || 'value']. *)
Definition pieDataKey (excelData : option (ExcelData num)) : option string :=
  match firstPointKeys excelData with
  | None => None
  | Some keys =>
      match List.find (λ k, bool_decide (k ≠ "name")) keys with
      | Some k => if truthy k then Some k else Some "value"
      | None => Some "value"
      end
  end.

(** The [data] of the [Pie], [chartData.slice(0, 5)], and the [fill] of
    its [Cell]s. *)
Definition pieData (excelData : option (ExcelData num)) : list (gmap string (cell num)) :=
  take 5 (getChartData Number_toString excelData).

Definition pieCells (excelData : option (ExcelData num)) : list (option string) :=
  imap (λ index _, color index) (pieData excelData).

End Render.

(** ** A concrete instance

    Numbers are integers printed in decimal, which is how
    [Number.prototype.toString] prints an integral double below 1e21. *)

Definition str (s : string) : option (cell Z) := Some (CString s).
Definition number (z : Z) : option (cell Z) := Some (CNumber z).

(** The decoded sheet of the design document's scenario. *)
Definition salesSheet : list (row Z) :=
  [ [str "Name"; str "Sales"];
    [str "Alice"; number 10];
    [str "Bob"; str "n/a"] ].

Definition salesModel : ExcelData Z :=
  {| headers := [str "Name"; str "Sales"];
     rows := [ [str "Alice"; number 10]; [str "Bob"; str "n/a"] ] |}.

(** A sheet whose second row is shorter than its header row. *)
Definition raggedSheet : list (row Z) :=
  [ [str "A"; str "B"]; [str "x"] ].

(** A model with a column headed [name]. *)
Definition nameModel : ExcelData Z :=
  {| headers := [str "name"]; rows := [ [number 7] ] |}.

(** A loaded session with one execution in flight. *)
Definition loadedState : State Z :=
  {| excelData := Some salesModel; fileName := "sales.xlsx"; isDragging := false;
     command := "abc"; commandHistory := []; isProcessing := true;
     toasts := []; readers := []; timers := [("abc", salesModel)] |}.

Definition salesFile : File := {| file_name := "sales.xlsx" |}.
Definition reportPdf : File := {| file_name := "report.pdf" |}.

(** A loaded session with nothing in flight. *)
Definition idleState : State Z :=
  {| excelData := Some salesModel; fileName := "sales.xlsx"; isDragging := false;
     command := ""; commandHistory := []; isProcessing := false;
     toasts := []; readers := []; timers := [] |}.

(** A loaded session with a command typed and nothing in flight. *)
Definition typedState : State Z :=
  {| excelData := Some salesModel; fileName := "sales.xlsx"; isDragging := false;
     command := " Покажи тренды "; commandHistory := []; isProcessing := false;
     toasts := []; readers := []; timers := [] |}.

(** A model with year columns, one of them twice. *)
Definition yearModel : ExcelData Z :=
  {| headers := [str "Region"; str "2021"; str "2020"; str "Total"; str "2021"];
     rows := [ [str "North"; number 3; number 4; number 7; str "x"];
               [str "South"; number 5; number 6; number 11; number 1] ] |}.

(** A session: a file is picked and loads, a command is typed, submitted
    and completes. *)
Definition salesSession : list (event Z) :=
  [ FileSelect [salesFile]; ReaderLoad 0 (JsonData salesSheet);
    Change "Покажи тренды"; KeyDown "Enter"; TimerExpires 1000 1001 ].

(** * Properties *)

Lemma append_assoc (a b c : string) : (a +:+ b) +:+ c = a +:+ (b +:+ c).
Proof.
  induction a as [|x a IH]; [reflexivity|].
  change (String x ((a +:+ b) +:+ c) = String x (a +:+ (b +:+ c))).
  by rewrite IH.
Qed.

Lemma includes_here (t q : string) : includes (t +:+ q) t.
Proof. by exists "", q. Qed.

Lemma includes_skip (p s t : string) : includes s t → includes (p +:+ s) t.
Proof.
  intros (p' & q & ->). exists (p +:+ p'), q. by rewrite append_assoc.
Qed.

Lemma truthy_true (s : string) : s ≠ "" → truthy s = true.
Proof. intros H. unfold truthy. by rewrite bool_decide_false. Qed.

Section Properties.

Context {num : Type} (Number_toString : num → string).

Implicit Types (s : State num) (d m : ExcelData num) (r : row num).

(** *** Loading *)

(** C1 (as amended): for a decoded sheet with at least one row the load
    handler stores the first decoded row as [headers] and the remaining
    decoded rows, untouched and in order, as [rows]; hence every stored
    row has the length of the header row exactly when every decoded row
    has the length of the first one. *)
Theorem C1_build_keeps_decoded_rows (file : File) (jsonData : list (row num)) s :
  (0 < length jsonData)%nat →
  ∃ m, excelData (reader_onload file (JsonData jsonData) s) = Some m
    ∧ jsonData = headers m :: rows m
    ∧ ((∀ i r, rows m !! i = Some r → length r = length (headers m))
       ↔ (∀ i r, jsonData !! i = Some r → length r = length (headers m))).
Proof.
  intros Hlen. destruct jsonData as [|hd rest]; simpl in Hlen; [lia|].
  exists {| headers := hd; rows := rest |}.
  split.
  { unfold reader_onload. rewrite decide_True by (simpl; lia). reflexivity. }
  split; [reflexivity|]. simpl. split.
  - intros H [|i] r Hi; simpl in Hi; [by simplify_eq | by eapply H].
  - intros H i r Hi. by apply (H (S i)).
Qed.

(** C2 (as amended): an empty decoded sheet is ignored, the handler
    returns the state it was given (no model, no file name, no history
    change, no notification); the error notification is signalled when
    decoding throws, and then too model, file name and history stay as
    they were. *)
Theorem C2_empty_sheet_is_ignored (file : File) s :
  reader_onload file (JsonData []) s = s
  ∧ excelData (reader_onload file Throws s) = excelData s
  ∧ fileName (reader_onload file Throws s) = fileName s
  ∧ commandHistory (reader_onload file Throws s) = commandHistory s
  ∧ toasts (reader_onload file Throws s) = (toasts s ++ [toastLoadFailed])%list
  ∧ variant toastLoadFailed = Some "destructive".
Proof. by repeat split. Qed.

(** *** Closing *)

(** C7: closing the dataset yields an absent model, the empty file name
    and the empty history, whatever the state was; the three fields are
    cleared by one transition. *)
Theorem C7_close_clears_all s :
  excelData (closeDataset s) = None
  ∧ fileName (closeDataset s) = ""
  ∧ commandHistory (closeDataset s) = [].
Proof. by repeat split. Qed.

(** C10: closing the dataset leaves the typed command text and the busy
    flag as they were, and the pending execution stays scheduled. *)
Theorem C10_close_keeps_command_and_busy s :
  command (closeDataset s) = command s
  ∧ isProcessing (closeDataset s) = isProcessing s
  ∧ timers (closeDataset s) = timers s.
Proof. by repeat split. Qed.

(** *** Chart data *)

(** C4: for a present model the chart data has [min 10 rows.length]
    points. *)
Theorem C4_chart_length m :
  length (getChartData Number_toString (Some m)) = min 10 (length (rows m)).
Proof.
  unfold getChartData. case_decide as H.
  - by rewrite H.
  - by rewrite length_imap, length_take.
Qed.

(** A key no numeric column writes keeps the value it had. *)
Lemma forEachHeader_frame (hs : row num) (i : nat) r (obj : gmap string (cell num)) k :
  (∀ j h, hs !! j = Some (Some h) → ToString Number_toString h = k →
          typeof (get r (i + j)) ≠ TNumber) →
  forEachHeader Number_toString hs i r obj !! k = obj !! k.
Proof.
  revert i obj. induction hs as [|[h|] hs IH]; intros i obj H; simpl; [done|..].
  - rewrite IH.
    + case_decide as Ht; [|done]. unfold assign. case_decide; [done|].
      rewrite lookup_insert_ne; [done|]. intros Hk.
      apply (H 0%nat h); [done|done|by rewrite Nat.add_0_r].
    + intros j h' Hj Hk. replace (S i + j)%nat with (i + S j)%nat by lia.
      exact (H (S j) h' Hj Hk).
  - apply IH. intros j h' Hj Hk. replace (S i + j)%nat with (i + S j)%nat by lia.
    exact (H (S j) h' Hj Hk).
Qed.

(** A value found under a key was there before or is a numeric cell of
    the row, in a column whose header has that key. *)
Lemma forEachHeader_lookup (hs : row num) (i : nat) r (obj : gmap string (cell num)) k v :
  forEachHeader Number_toString hs i r obj !! k = Some v →
  obj !! k = Some v
  ∨ (typeof v = TNumber
     ∧ ∃ j h, hs !! j = Some (Some h) ∧ ToString Number_toString h = k
              ∧ get r (i + j) = v).
Proof.
  revert i obj. induction hs as [|[h|] hs IH]; intros i obj H; simpl in H; [by left|..].
  - apply IH in H as [H | (Ht & j & h' & Hj & Hk & Hg)].
    + case_decide as Ht; [|by left]. unfold assign in H. case_decide; [by left|].
      destruct (decide (ToString Number_toString h = k)) as [<-|Hne].
      * rewrite lookup_insert_eq in H. simplify_eq. right. split; [done|].
        exists 0%nat, h. by rewrite Nat.add_0_r.
      * rewrite lookup_insert_ne in H by done. by left.
    + right. split; [done|]. exists (S j), h'.
      replace (i + S j)%nat with (S i + j)%nat by lia. done.
  - apply IH in H as [H | (Ht & j & h' & Hj & Hk & Hg)]; [by left|].
    right. split; [done|]. exists (S j), h'.
    replace (i + S j)%nat with (S i + j)%nat by lia. done.
Qed.

(** The points of the chart data are the [chartPoint]s of the first ten
    rows. *)
Lemma getChartData_lookup m (i : nat) (p : gmap string (cell num)) :
  getChartData Number_toString (Some m) !! i = Some p ↔
  ∃ r, rows m !! i = Some r ∧ (i < 10)%nat
       ∧ p = chartPoint Number_toString (headers m) i r.
Proof.
  unfold getChartData. case_decide as Hlen.
  - apply length_zero_iff_nil in Hlen. rewrite Hlen. split; [done|].
    by intros (r & Hr & _).
  - rewrite list_lookup_imap, fmap_Some. split.
    + intros (r & [Hr Hi]%lookup_take_Some & ->). eauto.
    + intros (r & Hr & Hi & ->). exists r. by rewrite lookup_take_Some.
Qed.

(** C3 (as amended): the point of the row at index [i] holds, under the
    key [name], the label made of the word for "row" in the interface
    language, a space and the decimal [i + 1], provided no header whose
    property key is [name] has a numeric cell in that row. *)
Theorem C3_label_of_row m (i : nat) r :
  rows m !! i = Some r →
  (i < 10)%nat →
  (∀ j h, headers m !! j = Some (Some h) →
          ToString Number_toString h = "name" → typeof (get r j) ≠ TNumber) →
  ∃ p, getChartData Number_toString (Some m) !! i = Some p
     ∧ p !! "name" = Some (CString ("Строка " +:+ nat_toString (i + 1))).
Proof.
  intros Hr Hi Hname. exists (chartPoint Number_toString (headers m) i r). split.
  - apply getChartData_lookup. eauto.
  - unfold chartPoint. rewrite forEachHeader_frame by done.
    apply lookup_singleton_eq.
Qed.

(** C5: in every chart point, a key other than the label key holds a
    value of type [number], namely the row's cell in a column headed by
    that key; and a key all of whose columns hold a non-numeric or absent
    cell in that row is not in the point at all. *)
Theorem C5_point_values_numeric m (i : nat) (p : gmap string (cell num)) (k : string) :
  getChartData Number_toString (Some m) !! i = Some p →
  k ≠ "name" →
  ∃ r, rows m !! i = Some r
     ∧ (∀ v, p !! k = Some v →
             typeof v = TNumber
             ∧ ∃ j h, headers m !! j = Some (Some h)
                      ∧ ToString Number_toString h = k ∧ get r j = v)
     ∧ ((∀ j h, headers m !! j = Some (Some h) →
                ToString Number_toString h = k → typeof (get r j) ≠ TNumber) →
        p !! k = None).
Proof.
  intros (r & Hr & Hi & ->)%getChartData_lookup Hk. exists r.
  split; [done|]. unfold chartPoint. split.
  - intros v [Hv|Hv]%forEachHeader_lookup; [|done].
    by rewrite lookup_singleton_ne in Hv.
  - intros Hnone. rewrite forEachHeader_frame by done.
    by apply lookup_singleton_ne.
Qed.

(** *** Commands and history *)

(** An awaited execution on a loaded session with nothing in flight. *)
Lemma runCommand_fields s d (c : string) (a b : Z) :
  excelData s = Some d → timers s = [] → trim c ≠ "" →
  excelData (runCommand Number_toString c a b s) = Some d
  ∧ timers (runCommand Number_toString c a b s) = []
  ∧ commandHistory (runCommand Number_toString c a b s)
    = newEntry Number_toString c d a b :: commandHistory s.
Proof.
  intros Hd Ht Hc. unfold runCommand, executeCommand. simpl.
  rewrite Hd, (truthy_true _ Hc). simpl.
  unfold timerFires. simpl. rewrite Ht. simpl. by rewrite Hd.
Qed.

(** C6: two awaited executions, of [c1] and then of [c2], on a loaded
    session with nothing in flight leave the history as the entry of
    [c2], then the entry of [c1], then the history as it was; every
    completed execution puts its entry in front, so older entries sit at
    larger indices. *)
Theorem C6_history_newest_first s d (c1 c2 : string) (a1 b1 a2 b2 : Z) :
  excelData s = Some d → timers s = [] → trim c1 ≠ "" → trim c2 ≠ "" →
  commandHistory
    (runCommand Number_toString c2 a2 b2 (runCommand Number_toString c1 a1 b1 s))
  = newEntry Number_toString c2 d a2 b2
      :: newEntry Number_toString c1 d a1 b1 :: commandHistory s
  ∧ (∀ i : nat,
       commandHistory
         (runCommand Number_toString c2 a2 b2 (runCommand Number_toString c1 a1 b1 s))
         !! (2 + i)%nat
       = commandHistory s !! i)
  ∧ (∀ (c : string) d' (a b : Z) s',
       commandHistory (executeCommand_callback Number_toString c d' a b s')
       = newEntry Number_toString c d' a b :: commandHistory s').
Proof.
  intros Hd Ht H1 H2.
  destruct (runCommand_fields s d c1 a1 b1 Hd Ht H1) as (Hd1 & Ht1 & Hh1).
  destruct (runCommand_fields _ d c2 a2 b2 Hd1 Ht1 H2) as (_ & _ & Hh2).
  rewrite Hh2, Hh1. by repeat split.
Qed.

(** C8: an awaited execution of a command that is not blank adds an
    entry whose result text contains the decimal row count and the
    headers joined with a comma and a space; for two rows under the
    headers Name and Sales it contains "2" and "Name, Sales". *)
Theorem C8_result_reports_shape s d (c : string) (a b : Z) :
  excelData s = Some d → timers s = [] → trim c ≠ "" →
  ∃ e, commandHistory (runCommand Number_toString c a b s) = e :: commandHistory s
    ∧ entry_command e = trim c
    ∧ includes (entry_result e) (nat_toString (length (rows d)))
    ∧ includes (entry_result e) (join Number_toString (headers d) ", ")
    ∧ (length (rows d) = 2%nat →
       headers d = [Some (CString "Name"); Some (CString "Sales")] →
       includes (entry_result e) "2" ∧ includes (entry_result e) "Name, Sales").
Proof.
  intros Hd Ht Hc.
  destruct (runCommand_fields s d c a b Hd Ht Hc) as (_ & _ & Hh).
  exists (newEntry Number_toString c d a b). split; [done|]. split; [done|].
  assert (includes (resultText Number_toString c d) (nat_toString (length (rows d))))
    as Hcount.
  { unfold resultText. do 7 apply includes_skip. apply includes_here. }
  assert (includes (resultText Number_toString c d)
            (join Number_toString (headers d) ", ")) as Hjoin.
  { unfold resultText. do 11 apply includes_skip. apply includes_here. }
  split; [done|]. split; [done|].
  intros Hlen Hhd. simpl. rewrite Hlen in Hcount. rewrite Hhd in Hjoin. done.
Qed.

(** *** Dropping files *)

(** C9: when no dropped file has a name ending in .xlsx or .xls, the
    drop handler signals the error notification asking for an Excel
    file, starts no read, and leaves model, file name and history as
    they were. *)
Theorem C9_drop_without_spreadsheet (files : list File) s :
  (∀ f, f ∈ files →
        endsWith (file_name f) ".xlsx" = false ∧ endsWith (file_name f) ".xls" = false) →
  toasts (handleDrop files s) = (toasts s ++ [toastNotExcel])%list
  ∧ variant toastNotExcel = Some "destructive"
  ∧ readers (handleDrop files s) = readers s
  ∧ excelData (handleDrop files s) = excelData s
  ∧ fileName (handleDrop files s) = fileName s
  ∧ commandHistory (handleDrop files s) = commandHistory s.
Proof.
  intros Hnone. unfold handleDrop.
  destruct (List.find isExcelName files) as [f|] eqn:Hfind.
  - apply find_some in Hfind as [Hin Hf]. apply list_elem_of_In in Hin.
    destruct (Hnone f Hin) as [H1 H2]. unfold isExcelName in Hf.
    rewrite H1, H2 in Hf. done.
  - by repeat split.
Qed.

End Properties.

(** * The properties on the concrete instance *)

(** C1, as stated, fails on a sheet whose data row is shorter than its
    header row: the stored row has one cell under two headers. *)
Lemma C1_ragged_sheet_counterexample :
  (0 < length raggedSheet)%nat
  ∧ ¬ (∀ m, excelData (reader_onload salesFile (JsonData raggedSheet) initialState) = Some m →
            ∀ (i : nat) r, rows m !! i = Some r → length r = length (headers m)).
Proof.
  split; [simpl; lia|]. intros H.
  specialize (H _ eq_refl 0%nat _ eq_refl). simpl in H. lia.
Qed.

Lemma C1_build_keeps_decoded_rows_witness :
  (0 < length salesSheet)%nat
  ∧ ∃ m, excelData (reader_onload salesFile (JsonData salesSheet) initialState) = Some m
      ∧ salesSheet = headers m :: rows m
      ∧ ((∀ (i : nat) r, rows m !! i = Some r → length r = length (headers m))
         ↔ (∀ (i : nat) r, salesSheet !! i = Some r → length r = length (headers m))).
Proof.
  split; [simpl; lia|].
  apply (C1_build_keeps_decoded_rows salesFile salesSheet initialState). simpl. lia.
Defined.

(** C2, as stated, fails: after an empty sheet is decoded no error
    notification has been signalled. *)
Lemma C2_empty_sheet_counterexample :
  ¬ (∃ t, t ∈ toasts (reader_onload salesFile (JsonData []) (@initialState Z))
          ∧ variant t = Some "destructive").
Proof. intros (t & Ht & _). simpl in Ht. by apply elem_of_nil in Ht. Qed.

(** C3, as stated, fails twice: the label of the first point of the
    sales model is not "Row 1", and in a model with a numeric column
    headed [name] the point holds no label at all under its label key. *)
Lemma C3_label_counterexample :
  ¬ (∃ p, getChartData int_toString (Some salesModel) !! 0%nat = Some p
          ∧ p !! "name" = Some (CString ("Row " +:+ nat_toString (0 + 1))))
  ∧ ¬ (∃ p, getChartData int_toString (Some nameModel) !! 0%nat = Some p
            ∧ ∃ l, p !! "name" = Some (CString l)).
Proof.
  split.
  - intros (p & Hp & Hl). vm_compute in Hp. injection Hp as <-. vm_compute in Hl. discriminate.
  - intros (p & Hp & l & Hl). vm_compute in Hp. injection Hp as <-. vm_compute in Hl. discriminate.
Qed.

Lemma C3_label_of_row_witness :
  ∃ p, getChartData int_toString (Some salesModel) !! 1%nat = Some p
     ∧ p !! "name" = Some (CString ("Строка " +:+ nat_toString (1 + 1))).
Proof.
  apply (C3_label_of_row int_toString salesModel 1 [str "Bob"; str "n/a"]).
  - reflexivity.
  - lia.
  - intros [|[|j]] h Hj Hk; simpl in Hj; simplify_eq; simpl in Hk; discriminate.
Defined.

Lemma C5_point_values_numeric_witness :
  ∃ r, rows salesModel !! 1%nat = Some r
     ∧ (∀ v, ({[ "name" := CString "Строка 2" ]} : gmap string (cell Z)) !! "Sales" = Some v →
             typeof v = TNumber
             ∧ ∃ (j : nat) h, headers salesModel !! j = Some (Some h)
                      ∧ ToString int_toString h = "Sales" ∧ get r j = v)
     ∧ ((∀ (j : nat) h, headers salesModel !! j = Some (Some h) →
                ToString int_toString h = "Sales" → typeof (get r j) ≠ TNumber) →
        ({[ "name" := CString "Строка 2" ]} : gmap string (cell Z)) !! "Sales" = None).
Proof.
  apply (C5_point_values_numeric int_toString salesModel 1
           {[ "name" := CString "Строка 2" ]} "Sales").
  - vm_compute. reflexivity.
  - discriminate.
Defined.

Lemma C6_history_newest_first_witness :
  commandHistory
    (runCommand int_toString "Удали дубликаты" 2000 2001
       (runCommand int_toString "Покажи тренды" 1000 1001 idleState))
  = [ newEntry int_toString "Удали дубликаты" salesModel 2000 2001;
      newEntry int_toString "Покажи тренды" salesModel 1000 1001 ].
Proof.
  apply (C6_history_newest_first int_toString idleState salesModel
           "Покажи тренды" "Удали дубликаты" 1000 1001 2000 2001).
  - reflexivity.
  - reflexivity.
  - vm_compute. discriminate.
  - vm_compute. discriminate.
Defined.

Lemma C8_result_reports_shape_witness :
  ∃ e, commandHistory (runCommand int_toString "среднее значение" 1000 1001 idleState)
       = e :: commandHistory idleState
    ∧ entry_command e = trim "среднее значение"
    ∧ includes (entry_result e) (nat_toString (length (rows salesModel)))
    ∧ includes (entry_result e) (join int_toString (headers salesModel) ", ")
    ∧ (length (rows salesModel) = 2%nat →
       headers salesModel = [Some (CString "Name"); Some (CString "Sales")] →
       includes (entry_result e) "2" ∧ includes (entry_result e) "Name, Sales").
Proof.
  apply (C8_result_reports_shape int_toString idleState salesModel
           "среднее значение" 1000 1001).
  - reflexivity.
  - reflexivity.
  - vm_compute. discriminate.
Defined.

Lemma C9_drop_without_spreadsheet_witness :
  toasts (handleDrop [reportPdf] idleState) = (toasts idleState ++ [toastNotExcel])%list
  ∧ variant toastNotExcel = Some "destructive"
  ∧ readers (handleDrop [reportPdf] idleState) = readers idleState
  ∧ excelData (handleDrop [reportPdf] idleState) = excelData idleState
  ∧ fileName (handleDrop [reportPdf] idleState) = fileName idleState
  ∧ commandHistory (handleDrop [reportPdf] idleState) = commandHistory idleState.
Proof.
  apply (C9_drop_without_spreadsheet [reportPdf] idleState).
  intros f Hf. apply list_elem_of_singleton in Hf. subst f.
  vm_compute. split; reflexivity.
Defined.

(** * The scenarios of the design document, evaluated *)

Example trim_example :
  trim ("  среднее значение " +:+ newline) = "среднее значение"
  ∧ trim (bytes [32; 194; 160; 9]) = "".
Proof. vm_compute. auto. Qed.

Example endsWith_example :
  endsWith "report.xlsx" ".xlsx" = true
  ∧ endsWith "old.xls" ".xls" = true
  ∧ endsWith "report.pdf" ".xlsx" = false
  ∧ endsWith "xls" ".xls" = false.
Proof. vm_compute. auto. Qed.

Example scenario_build :
  excelData (reader_onload salesFile (JsonData salesSheet) initialState) = Some salesModel
  ∧ fileName (reader_onload salesFile (JsonData salesSheet) initialState) = "sales.xlsx"
  ∧ toasts (reader_onload salesFile (JsonData salesSheet) initialState) = [toastLoaded salesFile].
Proof. by repeat split. Qed.

Example scenario_project :
  getChartData int_toString (Some salesModel)
  = [ {[ "name" := CString "Строка 1"; "Sales" := CNumber 10%Z ]};
      {[ "name" := CString "Строка 2" ]} ].
Proof. vm_compute. reflexivity. Qed.

Example scenario_name_column :
  getChartData int_toString (Some nameModel) = [ {[ "name" := CNumber 7%Z ]} ].
Proof. vm_compute. reflexivity. Qed.

Example scenario_close_while_busy :
  closeDataset loadedState
  = {| excelData := None; fileName := ""; isDragging := false;
       command := "abc"; commandHistory := []; isProcessing := true;
       toasts := []; readers := []; timers := [("abc", salesModel)] |}.
Proof. reflexivity. Qed.

(** * Further properties of the handlers *)

(** ** File names *)

Lemma length_append (p q : string) :
  String.length (p +:+ q) = (String.length p + String.length q)%nat.
Proof.
  induction p as [|c p IH]; [done|].
  change (S (String.length (p +:+ q)) = S (String.length p + String.length q)).
  by rewrite IH.
Qed.

Lemma substring_all (q : string) : substring 0 (String.length q) q = q.
Proof. induction q as [|c q IH]; [done|]. cbn. by rewrite IH. Qed.

Lemma substring_append (p q : string) (k : nat) :
  substring (String.length p) k (p +:+ q) = substring 0 k q.
Proof. induction p as [|c p IH]; [done|]. exact IH. Qed.

Lemma substring_split (s : string) (a : nat) :
  (a ≤ String.length s)%nat →
  s = substring 0 a s +:+ substring a (String.length s - a) s.
Proof.
  revert a. induction s as [|c s IH]; intros a Ha.
  - cbn in Ha. by assert (a = 0%nat) as -> by lia.
  - destruct a as [|a].
    + change (String c s = substring 0 (String.length (String c s)) (String c s)).
      by rewrite substring_all.
    + cbn in Ha.
      change (String c s
              = String c (substring 0 a s +:+ substring a (String.length s - a) s)).
      by rewrite <- (IH a) by lia.
Qed.

(** [s.endsWith(suffix)] holds exactly of the strings that are some
    prefix followed by [suffix]. *)
Lemma endsWith_spec (s suffix : string) :
  endsWith s suffix = true ↔ ∃ p, s = p +:+ suffix.
Proof.
  unfold endsWith. split.
  - case_decide as Hle; [|done]. intros Heq%bool_decide_eq_true.
    exists (substring 0 (String.length s - String.length suffix) s).
    pose proof (substring_split s (String.length s - String.length suffix)) as Hs.
    replace (String.length s - (String.length s - String.length suffix))%nat
      with (String.length suffix) in Hs by lia.
    rewrite Heq in Hs. apply Hs. lia.
  - intros [p ->]. rewrite length_append.
    rewrite decide_True by lia. apply bool_decide_eq_true.
    replace (String.length p + String.length suffix - String.length suffix)%nat
      with (String.length p) by lia.
    rewrite substring_append. apply substring_all.
Qed.

(** X1: the drop handler takes a file for a spreadsheet exactly when its
    name is some text followed by .xlsx or by .xls (lower case, and the
    text may be empty). *)
Theorem spreadsheet_names (f : File) :
  isExcelName f = true ↔
  ∃ p, file_name f = p +:+ ".xlsx" ∨ file_name f = p +:+ ".xls".
Proof.
  unfold isExcelName. rewrite orb_true_iff, !endsWith_spec. split.
  - intros [[p Hp]|[p Hp]]; exists p; auto.
  - intros [p [Hp|Hp]]; [left|right]; by exists p.
Qed.

Lemma truthy_inv (s : string) : truthy s = true → s ≠ "".
Proof. unfold truthy. by intros H ->. Qed.

Section Handlers.

Context {num : Type} (Number_toString : num → string).

Implicit Types (s : State num) (d m : ExcelData num) (r : row num).

(** ** Starting and completing a load *)

Lemma find_first (pre post : list File) (f : File) :
  (∀ g, g ∈ pre → isExcelName g = false) → isExcelName f = true →
  List.find isExcelName (pre ++ f :: post) = Some f.
Proof.
  intros Hpre Hf. induction pre as [|g pre IH]; simpl.
  - by rewrite Hf.
  - rewrite (Hpre g) by left. apply IH. intros g' Hg'. apply Hpre. by right.
Qed.

(** X2: of the dropped files the handler reads the first one, in drop
    order, whose name is a spreadsheet name, and only that one; it
    signals nothing, ends the dragging highlight and leaves model, file
    name and history as they were until the read completes. *)
Theorem drop_reads_first_spreadsheet (pre post : list File) (f : File) s :
  (∀ g, g ∈ pre → isExcelName g = false) →
  isExcelName f = true →
  readers (handleDrop (pre ++ f :: post) s) = (readers s ++ [f])%list
  ∧ toasts (handleDrop (pre ++ f :: post) s) = toasts s
  ∧ isDragging (handleDrop (pre ++ f :: post) s) = false
  ∧ excelData (handleDrop (pre ++ f :: post) s) = excelData s
  ∧ fileName (handleDrop (pre ++ f :: post) s) = fileName s
  ∧ commandHistory (handleDrop (pre ++ f :: post) s) = commandHistory s.
Proof.
  intros Hpre Hf. unfold handleDrop. rewrite (find_first pre post f Hpre Hf).
  by repeat split.
Qed.

(** X3: the file picker's handler reads the first selected file whatever
    its name and signals nothing, and an empty selection changes
    nothing; the name check is the drop handler's alone, which starts no
    read for a single file whose name is not a spreadsheet name. *)
Theorem file_select_applies_no_name_check (f : File) (rest : list File) s :
  readers (handleFileSelect (f :: rest) s) = (readers s ++ [f])%list
  ∧ toasts (handleFileSelect (f :: rest) s) = toasts s
  ∧ handleFileSelect [] s = s
  ∧ (isExcelName f = false → readers (handleDrop [f] s) = readers s).
Proof.
  repeat split. intros Hf. unfold handleDrop. simpl. by rewrite Hf.
Qed.

(** X4: a read that delivers a sheet with at least one row replaces the
    model and the file name whatever they were, signals the confirmation
    (not an error), and keeps the history, the typed command, the busy
    flag and the pending execution: loading does not clear the
    history. *)
Theorem load_replaces_model_keeps_history (file : File) (hd : row num)
    (rest : list (row num)) s :
  excelData (reader_onload file (JsonData (hd :: rest)) s)
  = Some {| headers := hd; rows := rest |}
  ∧ fileName (reader_onload file (JsonData (hd :: rest)) s) = file_name file
  ∧ toasts (reader_onload file (JsonData (hd :: rest)) s)
    = (toasts s ++ [toastLoaded file])%list
  ∧ variant (toastLoaded file) = None
  ∧ commandHistory (reader_onload file (JsonData (hd :: rest)) s) = commandHistory s
  ∧ command (reader_onload file (JsonData (hd :: rest)) s) = command s
  ∧ isProcessing (reader_onload file (JsonData (hd :: rest)) s) = isProcessing s
  ∧ timers (reader_onload file (JsonData (hd :: rest)) s) = timers s.
Proof. by repeat split. Qed.

Lemma getChartData_length m :
  length (getChartData Number_toString (Some m)) = min 10 (length (rows m)).
Proof.
  unfold getChartData. case_decide as H.
  - by rewrite H.
  - by rewrite length_imap, length_take.
Qed.

(** X5: after a sheet of n rows (n at least 1) is loaded, the chart data
    has min(10, n - 1) points: the header row is not charted, and a
    sheet with a header row only loads with an empty chart. *)
Theorem chart_after_load (file : File) (jsonData : list (row num)) s :
  (0 < length jsonData)%nat →
  length (getChartData Number_toString
            (excelData (reader_onload file (JsonData jsonData) s)))
  = min 10 (length jsonData - 1).
Proof.
  intros Hlen. destruct jsonData as [|hd rest]; simpl in Hlen; [lia|].
  change (excelData (reader_onload file (JsonData (hd :: rest)) s))
    with (Some {| headers := hd; rows := rest |}).
  rewrite getChartData_length. simpl. by rewrite Nat.sub_0_r.
Qed.

(** X6: from the initial state, a drop containing a spreadsheet name
    followed by the completion of its read with a non-empty sheet ends
    in the loaded session of that file: its first row as headers, the
    rest as rows, its name shown, one confirmation, nothing pending. *)
Theorem drop_then_load (pre post : list File) (f : File) (hd : row num)
    (rest : list (row num)) :
  (∀ g, g ∈ pre → isExcelName g = false) →
  isExcelName f = true →
  run Number_toString [Drop (pre ++ f :: post); ReaderLoad 0 (JsonData (hd :: rest))]
    initialState
  = {| excelData := Some {| headers := hd; rows := rest |};
       fileName := file_name f; isDragging := false; command := "";
       commandHistory := []; isProcessing := false;
       toasts := [toastLoaded f]; readers := []; timers := [] |}.
Proof.
  intros Hpre Hf. unfold run. simpl. unfold step at 2. simpl.
  unfold handleDrop. rewrite (find_first pre post f Hpre Hf). reflexivity.
Qed.

(** ** Submitting and completing a command *)

Lemma executeCommand_eq s d :
  excelData s = Some d → trim (command s) ≠ "" →
  executeCommand s = setTimers (timers s ++ [(command s, d)]) (setIsProcessing true s).
Proof. intros Hd Hc. unfold executeCommand. by rewrite Hd, (truthy_true _ Hc). Qed.

(** X7: submitting changes nothing exactly when no model is loaded or
    the typed command is blank (empty after trimming). *)
Theorem execute_guard s :
  executeCommand s = s ↔ excelData s = None ∨ trim (command s) = "".
Proof.
  split.
  - intros Heq. destruct (excelData s) as [d|] eqn:Hd; [|by left]. right.
    destruct (decide (trim (command s) = "")) as [|Hc]; [done|].
    rewrite (executeCommand_eq s d Hd Hc) in Heq.
    apply (f_equal (λ x, length (timers x))) in Heq. simpl in Heq.
    rewrite length_app in Heq. simpl in Heq. lia.
  - intros [H|H]; unfold executeCommand.
    + by rewrite H.
    + destruct (excelData s); [|done]. by rewrite H.
Qed.

(** X8: an accepted submission raises the busy flag and schedules one
    callback holding the command as typed and the current model; the
    command text, the history, the notifications and the model stay as
    they are until the callback runs. *)
Theorem execute_accepts s d :
  excelData s = Some d → trim (command s) ≠ "" →
  isProcessing (executeCommand s) = true
  ∧ timers (executeCommand s) = (timers s ++ [(command s, d)])%list
  ∧ command (executeCommand s) = command s
  ∧ commandHistory (executeCommand s) = commandHistory s
  ∧ toasts (executeCommand s) = toasts s
  ∧ excelData (executeCommand s) = excelData s.
Proof.
  intros Hd Hc. rewrite (executeCommand_eq s d Hd Hc). by repeat split.
Qed.

(** X9: when an awaited execution completes, the command field is
    empty, the busy flag is down, one confirmation (not an error) has
    been signalled, and model, file name and started reads are as
    before. *)
Theorem completion_effects s d (c : string) (a b : Z) :
  excelData s = Some d → timers s = [] → trim c ≠ "" →
  command (runCommand Number_toString c a b s) = ""
  ∧ isProcessing (runCommand Number_toString c a b s) = false
  ∧ toasts (runCommand Number_toString c a b s) = (toasts s ++ [toastDone])%list
  ∧ variant toastDone = None
  ∧ excelData (runCommand Number_toString c a b s) = excelData s
  ∧ fileName (runCommand Number_toString c a b s) = fileName s
  ∧ readers (runCommand Number_toString c a b s) = readers s.
Proof.
  intros Hd Ht Hc. unfold runCommand, executeCommand. simpl.
  rewrite Hd, (truthy_true _ Hc). simpl. unfold timerFires. simpl. rewrite Ht. simpl.
  by repeat split.
Qed.

(** X10: a history entry stores the command trimmed, but its result
    text quotes the command exactly as it was typed; its id is the
    decimal numeral of the clock reading and its time stamp the second
    reading. *)
Theorem entry_fields (c : string) d (a b : Z) :
  entry_id (newEntry Number_toString c d a b) = int_toString a
  ∧ entry_timestamp (newEntry Number_toString c d a b) = b
  ∧ entry_command (newEntry Number_toString c d a b) = trim c
  ∧ includes (entry_result (newEntry Number_toString c d a b)) (dquote +:+ c +:+ dquote).
Proof.
  repeat split. simpl. unfold resultText. apply includes_skip.
  exists "", (newline +:+ newline
    +:+ "Найдено " +:+ nat_toString (length (rows d)) +:+ " строк данных." +:+ newline
    +:+ "Колонки: " +:+ join Number_toString (headers d) ", " +:+ newline +:+ newline
    +:+ "Для полной интеграации с AI подключите DeepSeek API.").
  by rewrite !append_assoc.
Qed.

(** X11: closing the dataset while an execution is in flight does not
    cancel it: when its timer expires the entry is added to the history
    the close had emptied, so the session ends with no model, no file
    name and a history of one entry describing the closed model. *)
Theorem close_in_flight s d (c : string) (a b : Z) :
  excelData s = Some d → timers s = [] → trim c ≠ "" →
  excelData (timerFires Number_toString a b
               (closeDataset (executeCommand (setCommand c s)))) = None
  ∧ fileName (timerFires Number_toString a b
                (closeDataset (executeCommand (setCommand c s)))) = ""
  ∧ commandHistory (timerFires Number_toString a b
                      (closeDataset (executeCommand (setCommand c s))))
    = [newEntry Number_toString c d a b].
Proof.
  intros Hd Ht Hc. unfold executeCommand. simpl.
  rewrite Hd, (truthy_true _ Hc). simpl. unfold timerFires. simpl. rewrite Ht. simpl.
  by repeat split.
Qed.

(** X12: an entry reports the model that was loaded when the command
    was submitted: if a read completes in between and replaces the
    model, the entry added on completion still describes the earlier
    model. *)
Theorem entry_reports_model_at_submission s d (c : string) (a b : Z)
    (file : File) (hd : row num) (rest : list (row num)) :
  excelData s = Some d → timers s = [] → trim c ≠ "" →
  excelData (timerFires Number_toString a b
               (reader_onload file (JsonData (hd :: rest))
                  (executeCommand (setCommand c s))))
  = Some {| headers := hd; rows := rest |}
  ∧ commandHistory (timerFires Number_toString a b
                      (reader_onload file (JsonData (hd :: rest))
                         (executeCommand (setCommand c s))))
    = newEntry Number_toString c d a b :: commandHistory s.
Proof.
  intros Hd Ht Hc. unfold executeCommand. simpl.
  rewrite Hd, (truthy_true _ Hc). simpl. unfold timerFires. simpl. rewrite Ht. simpl.
  by repeat split.
Qed.

End Handlers.

(** * Properties of the session as a state machine *)

Section Machine.

Context {num : Type} (Number_toString : num → string).

Implicit Types (s : State num) (d m : ExcelData num) (e : event num).

Lemma step_enabled e s :
  enabled e s = true → step Number_toString e s = handle Number_toString e s.
Proof. intros H. unfold step. by rewrite H. Qed.

Lemma step_disabled e s : enabled e s = false → step Number_toString e s = s.
Proof. intros H. unfold step. by rewrite H. Qed.

(** A property that holds of a state and is kept by every step holds
    after every sequence of events from that state. *)
Lemma run_invariant (P : State num → Prop) (es : list (event num)) s :
  (∀ e s', P s' → P (step Number_toString e s')) →
  P s → P (run Number_toString es s).
Proof.
  intros Hstep. revert s. induction es as [|e es IH]; intros s Hs; [done|].
  simpl. apply IH. by apply Hstep.
Qed.

(** X13: while an execution is in flight the command line is disabled:
    a command typed and submitted, then Enter pressed again and the send
    button clicked before the timer expires, gives one entry, and a
    further timer event finds nothing to run. *)
Theorem double_submit_gives_one_entry s d (c : string) (a b a' b' : Z) :
  excelData s = Some d → isProcessing s = false → timers s = [] → trim c ≠ "" →
  commandHistory
    (run Number_toString
       [Change c; KeyDown "Enter"; KeyDown "Enter"; Click;
        TimerExpires a b; TimerExpires a' b'] s)
  = newEntry Number_toString c d a b :: commandHistory s
  ∧ timers
      (run Number_toString
         [Change c; KeyDown "Enter"; KeyDown "Enter"; Click;
          TimerExpires a b; TimerExpires a' b'] s) = [].
Proof.
  intros Hd Hb Ht Hc. unfold run. cbn [foldl].
  rewrite (step_enabled (Change c) s)
    by (unfold enabled, workspaceShown, inputDisabled; by rewrite Hd, Hb).
  cbn [handle]. unfold handleChange.
  rewrite (step_enabled (KeyDown "Enter") (setCommand c s))
    by (unfold enabled, workspaceShown, inputDisabled; cbn; by rewrite Hd, Hb).
  cbn [handle]. unfold handleKeyDown. rewrite decide_True by done.
  rewrite (executeCommand_eq (setCommand c s) d) by done.
  cbn [timers setCommand command]. rewrite Ht. cbn [app].
  rewrite (step_disabled (KeyDown "Enter"))
    by (unfold enabled, workspaceShown, inputDisabled; cbn; by rewrite Hd).
  rewrite (step_disabled Click)
    by (unfold enabled, workspaceShown, buttonDisabled; cbn; by rewrite Hd).
  rewrite (step_enabled (TimerExpires a b)) by done.
  cbn [handle]. unfold timerFires at 1. cbn [timers setTimers].
  by rewrite (step_disabled (TimerExpires a' b')) by done.
Qed.

Lemma step_single_flight e s :
  ((length (timers s) ≤ 1)%nat ∧ (isProcessing s = true ↔ timers s ≠ [])) →
  (length (timers (step Number_toString e s)) ≤ 1)%nat
  ∧ (isProcessing (step Number_toString e s) = true
     ↔ timers (step Number_toString e s) ≠ []).
Proof.
  intros [Hlen Hiff]. unfold step. destruct (enabled e s) eqn:Hen; [|done].
  assert (isProcessing s = false → timers s = []) as Hidle.
  { intros Hbusy. destruct (timers s) eqn:E; [done|]. rewrite Hbusy in Hiff.
    destruct Hiff as [_ H2]. by discriminate H2. }
  destruct e as [| |files|files|i j|text|key| |now_id now_ts|]; simpl in *; try done.
  - unfold handleDrop. by destruct (List.find _ _).
  - unfold handleFileSelect. by destruct (_ !! _).
  - unfold readerLoadsAt. destruct (_ !! _); [|done].
    unfold reader_onload. destruct j; [done|]. by case_decide.
  - unfold handleKeyDown. case_decide; [|done].
    apply andb_true_iff in Hen as [_ Hbusy%negb_true_iff].
    unfold executeCommand. destruct (excelData s); [|done].
    destruct (negb _); [done|]. simpl. rewrite (Hidle Hbusy). simpl.
    split; [lia|done].
  - apply andb_true_iff in Hen as [_ Hen%negb_true_iff].
    apply orb_false_iff in Hen as [Hbusy _].
    unfold executeCommand. destruct (excelData s); [|done].
    destruct (negb _); [done|]. simpl. rewrite (Hidle Hbusy). simpl.
    split; [lia|done].
  - unfold timerFires. destruct (timers s) as [|[c d] rest] eqn:E; [done|].
    simpl in *. assert (rest = []) as -> by (destruct rest; [done|simpl in Hlen; lia]).
    split; [lia|]. done.
Qed.

(** X14: in every state the session can reach from its initial state, at
    most one execution is in flight, and the busy flag is up exactly
    when one is. *)
Theorem single_flight (es : list (event num)) :
  (length (timers (run Number_toString es initialState)) ≤ 1)%nat
  ∧ (isProcessing (run Number_toString es initialState) = true
     ↔ timers (run Number_toString es initialState) ≠ []).
Proof.
  apply (run_invariant
           (λ s, (length (timers s) ≤ 1)%nat ∧ (isProcessing s = true ↔ timers s ≠ []))).
  - apply step_single_flight.
  - simpl. split; [lia|]. done.
Qed.

Lemma step_nonblank e s :
  (Forall (λ x, entry_command x ≠ "") (commandHistory s)
   ∧ Forall (λ p, trim p.1 ≠ "") (timers s)) →
  Forall (λ x, entry_command x ≠ "") (commandHistory (step Number_toString e s))
  ∧ Forall (λ p, trim p.1 ≠ "") (timers (step Number_toString e s)).
Proof.
  intros [Hh Ht]. unfold step. destruct (enabled e s); [|done].
  assert (Forall (λ x, entry_command x ≠ "") (commandHistory (executeCommand s))
          ∧ Forall (λ p : string * ExcelData num, trim p.1 ≠ "") (timers (executeCommand s)))
    as Hexec.
  { unfold executeCommand. destruct (excelData s); [|done].
    destruct (truthy (trim (command s))) eqn:Hc; simpl; [|by split]. split; [done|].
    apply Forall_app. split; [done|]. apply Forall_singleton. simpl.
    by apply truthy_inv. }
  destruct e as [| |files|files|i j|text|key| |now_id now_ts|]; simpl; try done.
  - unfold handleDrop. by destruct (List.find _ _).
  - unfold handleFileSelect. by destruct (_ !! _).
  - unfold readerLoadsAt. destruct (_ !! _); [|done].
    unfold reader_onload. destruct j; [done|]. by case_decide.
  - unfold handleKeyDown. by case_decide.
  - unfold timerFires. destruct (timers s) as [|[c d] rest] eqn:E.
    { simpl. rewrite E. by split. }
    simpl. apply Forall_cons in Ht as [Hc Hrest]. split; [|done].
    apply Forall_cons. done.
Qed.

(** X15: in every reachable state, every entry of the history has a
    non-empty command. *)
Theorem history_commands_nonblank (es : list (event num)) (x : CommandHistory) :
  x ∈ commandHistory (run Number_toString es initialState) → entry_command x ≠ "".
Proof.
  intros Hx.
  assert (Forall (λ x, entry_command x ≠ "")
            (commandHistory (run Number_toString es initialState))
          ∧ Forall (λ p : string * ExcelData num, trim p.1 ≠ "")
              (timers (run Number_toString es initialState))) as [H _].
  { apply (run_invariant
           (λ s, Forall (λ x, entry_command x ≠ "") (commandHistory s)
                 ∧ Forall (λ p : string * ExcelData num, trim p.1 ≠ "") (timers s))).
    - apply step_nonblank.
    - simpl. split; constructor. }
  rewrite Forall_forall in H. by apply H.
Qed.

Lemma step_empty_unnamed e s :
  (excelData s = None → fileName s = "") →
  excelData (step Number_toString e s) = None → fileName (step Number_toString e s) = "".
Proof.
  intros H. unfold step. destruct (enabled e s); [|done].
  destruct e; simpl; try done;
    unfold handleDrop, handleFileSelect, readerLoadsAt, reader_onload, handleKeyDown,
      executeCommand, timerFires;
    repeat case_match; simpl; try done.
  all: intros; first [congruence | by auto].
Qed.

(** X16: in every reachable state without a model the file name is
    empty, so the file name badge is shown only over a loaded
    dataset. *)
Theorem empty_session_unnamed (es : list (event num)) :
  excelData (run Number_toString es initialState) = None →
  fileName (run Number_toString es initialState) = "".
Proof.
  apply (run_invariant (λ s, excelData s = None → fileName s = "")).
  - apply step_empty_unnamed.
  - done.
Qed.

(** X17: one event changes the history in one of two ways only: a timer
    expiry puts one new entry in front of it, the close button empties
    it; no event edits, reorders or removes single entries. *)
Theorem history_changes_by_prepend_or_clear e s :
  commandHistory (step Number_toString e s) = commandHistory s
  ∨ (∃ (a b : Z) (c : string) d,
       e = TimerExpires a b
       ∧ commandHistory (step Number_toString e s)
         = newEntry Number_toString c d a b :: commandHistory s)
  ∨ (e = Close ∧ commandHistory (step Number_toString e s) = []).
Proof.
  unfold step. destruct (enabled e s); [|by left].
  destruct e as [| |files|files|i j|text|key| |now_id now_ts|]; simpl; try by left.
  - left. unfold handleDrop. by destruct (List.find _ _).
  - left. unfold handleFileSelect. by destruct (_ !! _).
  - left. unfold readerLoadsAt. destruct (_ !! _); [|done].
    unfold reader_onload. destruct j; [done|]. by case_decide.
  - left. unfold handleKeyDown. case_decide; [|done]. unfold executeCommand.
    destruct (excelData s); [|done]. by destruct (negb _).
  - left. unfold executeCommand.
    destruct (excelData s); [|done]. by destruct (negb _).
  - unfold timerFires. destruct (timers s) as [|[c d] rest]; [by left|].
    right. left. by exists now_id, now_ts, c, d.
  - right. by right.
Qed.

(** X18: only the completion of a read and the close button change the
    model or the file name; typing, submitting and completing a command,
    dragging, dropping and picking files leave both as they are. *)
Theorem model_changes_only_by_load_or_close e s :
  (∀ (i : nat) (j : decoded num), e ≠ ReaderLoad i j) → e ≠ Close →
  excelData (step Number_toString e s) = excelData s
  ∧ fileName (step Number_toString e s) = fileName s.
Proof.
  intros Hload Hclose. unfold step. destruct (enabled e s); [|done].
  destruct e as [| |files|files|i j|text|key| |now_id now_ts|]; simpl; try done.
  - unfold handleDrop. by destruct (List.find _ _).
  - unfold handleFileSelect. by destruct (_ !! _).
  - by destruct (Hload i j).
  - unfold handleKeyDown. case_decide; [|done]. unfold executeCommand.
    destruct (excelData s) eqn:E; [|done]. destruct (negb _); simpl; by rewrite ?E.
  - unfold executeCommand.
    destruct (excelData s) eqn:E; [|done]. destruct (negb _); simpl; by rewrite ?E.
  - unfold timerFires. by destruct (timers s) as [|[c d] rest].
Qed.

(** X19: a second file picked before the first has finished loading
    replaces the first model without any close, and the history survives
    the replacement: the entry of a command run on the first model is
    still there, describing a model that is no longer loaded. *)
Theorem second_load_keeps_history (f1 f2 : File) (h1 h2 : row num)
    (r1 r2 : list (row num)) (c : string) (a b : Z) :
  trim c ≠ "" →
  run Number_toString
    [FileSelect [f1]; FileSelect [f2]; ReaderLoad 0 (JsonData (h1 :: r1));
     Change c; KeyDown "Enter"; TimerExpires a b;
     ReaderLoad 0 (JsonData (h2 :: r2))] initialState
  = {| excelData := Some {| headers := h2; rows := r2 |};
       fileName := file_name f2; isDragging := false; command := "";
       commandHistory := [newEntry Number_toString c {| headers := h1; rows := r1 |} a b];
       isProcessing := false;
       toasts := [toastLoaded f1; toastDone; toastLoaded f2];
       readers := []; timers := [] |}.
Proof.
  intros Hc. unfold run. cbn [foldl].
  rewrite (step_enabled (FileSelect [f1])) by reflexivity. cbn [handle].
  rewrite (step_enabled (FileSelect [f2])) by reflexivity. cbn [handle].
  rewrite (step_enabled (ReaderLoad 0 (JsonData (h1 :: r1)))) by reflexivity.
  cbn [handle].
  rewrite (step_enabled (Change c)) by reflexivity. cbn [handle]. unfold handleChange.
  rewrite (step_enabled (KeyDown "Enter")) by reflexivity.
  cbn [handle]. unfold handleKeyDown. rewrite decide_True by done.
  rewrite (executeCommand_eq _ {| headers := h1; rows := r1 |}) by done.
  rewrite (step_enabled (TimerExpires a b)) by reflexivity. cbn [handle].
  rewrite (step_enabled (ReaderLoad 0 (JsonData (h2 :: r2)))) by reflexivity.
  reflexivity.
Qed.

End Machine.

(** * Further properties of the chart data and of what the charts draw *)

Lemma Object_keys_Permutation (created : list string) : Object_keys created ≡ₚ created.
Proof.
  unfold Object_keys. rewrite merge_sort_Permutation. apply filter_app_complement.
Qed.

Lemma color_is_Some (i : nat) : ∃ c, color i = Some c ∧ c ∈ COLORS.
Proof.
  unfold color. destruct (COLORS !! (i mod length COLORS)%nat) as [c|] eqn:E.
  - exists c. split; [done|]. by apply list_elem_of_lookup_2 in E.
  - apply lookup_ge_None in E. simpl in E.
    pose proof (Nat.mod_upper_bound i 5). lia.
Qed.

Lemma find_head_filter (keys : list string) :
  List.find (λ k, bool_decide (k ≠ "name")) keys = head (filter (λ k, k ≠ "name") keys).
Proof.
  induction keys as [|k keys IH]; [done|]. simpl. rewrite filter_cons.
  destruct (decide (k ≠ "name")) as [H|H].
  - by rewrite bool_decide_true.
  - by rewrite bool_decide_false.
Qed.


Section Chart.

Context {num : Type} (Number_toString : num → string).

Implicit Types (d m : ExcelData num) (r : row num).

Lemma forEachHeader_last (hs : row num) (i : nat) r (obj : gmap string (cell num))
    (j : nat) (h : cell num) :
  hs !! j = Some (Some h) →
  ToString Number_toString h ≠ "__proto__" →
  typeof (get r (i + j)) = TNumber →
  (∀ j' h', (j < j')%nat → hs !! j' = Some (Some h') →
            ToString Number_toString h' = ToString Number_toString h →
            typeof (get r (i + j')) ≠ TNumber) →
  forEachHeader Number_toString hs i r obj !! ToString Number_toString h
  = Some (get r (i + j)).
Proof.
  revert i j obj. induction hs as [|x hs IH]; intros i j obj Hj Hp Hn Hlater; [done|].
  destruct j as [|j].
  - simpl in Hj. simplify_eq. simpl. rewrite Nat.add_0_r in *.
    rewrite decide_True by done.
    rewrite (forEachHeader_frame Number_toString).
    + unfold assign. rewrite decide_False by done. apply lookup_insert_eq.
    + intros j' h' Hj' Hk. replace (S i + j')%nat with (i + S j')%nat by lia.
      apply (Hlater (S j') h'); [lia|done|done].
  - simpl in Hj. replace (i + S j)%nat with (S i + j)%nat in * by lia.
    assert (∀ j' h', (j < j')%nat → hs !! j' = Some (Some h') →
              ToString Number_toString h' = ToString Number_toString h →
              typeof (get r (S i + j')) ≠ TNumber) as Hlater'.
    { intros j' h' Hlt Hj' Hk. replace (S i + j')%nat with (i + S j')%nat by lia.
      apply (Hlater (S j') h'); [lia|done|done]. }
    destruct x as [h0|]; simpl; by apply (IH (S i) j).
Qed.

(** X23: a numeric cell is charted under its header's key: the point
    holds, under that key, the cell of the last column with that key
    whose cell in the row is numeric. This includes the key [name],
    where the number replaces the row label; the key [__proto__] is the
    one exception. *)
Theorem last_numeric_column_wins m (i : nat) r (j : nat) (h : cell num) :
  rows m !! i = Some r → (i < 10)%nat →
  headers m !! j = Some (Some h) →
  ToString Number_toString h ≠ "__proto__" →
  typeof (get r j) = TNumber →
  (∀ j' h', (j < j')%nat → headers m !! j' = Some (Some h') →
            ToString Number_toString h' = ToString Number_toString h →
            typeof (get r j') ≠ TNumber) →
  ∃ p, getChartData Number_toString (Some m) !! i = Some p
     ∧ p !! ToString Number_toString h = Some (get r j).
Proof.
  intros Hr Hi Hj Hp Hn Hlater.
  exists (chartPoint Number_toString (headers m) i r). split.
  - apply getChartData_lookup. eauto.
  - unfold chartPoint. by apply (forEachHeader_last (headers m) 0 r _ j h).
Qed.

Lemma forEachHeader_keeps (hs : row num) (i : nat) r (obj : gmap string (cell num)) k :
  is_Some (obj !! k) → is_Some (forEachHeader Number_toString hs i r obj !! k).
Proof.
  revert i obj. induction hs as [|[h|] hs IH]; intros i obj H; simpl; [done|..].
  - apply IH. case_decide; [|done]. unfold assign. case_decide; [done|].
    rewrite lookup_insert. case_decide; [done|done].
  - by apply IH.
Qed.

Lemma forEachHeader_proto (hs : row num) (i : nat) r (obj : gmap string (cell num)) :
  obj !! "__proto__" = None →
  forEachHeader Number_toString hs i r obj !! "__proto__" = None.
Proof.
  revert i obj. induction hs as [|[h|] hs IH]; intros i obj H; simpl; [done|..].
  - apply IH. case_decide; [|done]. unfold assign. case_decide; [done|].
    by rewrite lookup_insert_ne.
  - by apply IH.
Qed.

(** X22: every chart point has the key [name], never has the key
    [__proto__], and has no key besides [name] and the keys of the
    headers. *)
Theorem point_keys m (i : nat) (p : gmap string (cell num)) :
  getChartData Number_toString (Some m) !! i = Some p →
  is_Some (p !! "name")
  ∧ p !! "__proto__" = None
  ∧ ∀ k, is_Some (p !! k) →
         k = "name" ∨ ∃ (j : nat) h, headers m !! j = Some (Some h)
                                     ∧ ToString Number_toString h = k.
Proof.
  intros (r & Hr & Hi & ->)%getChartData_lookup. unfold chartPoint. repeat split.
  - apply forEachHeader_keeps. by rewrite lookup_singleton_eq.
  - apply forEachHeader_proto. by apply lookup_singleton_ne.
  - intros k [v Hv]. destruct (decide (k = "name")) as [|Hk]; [by left|right].
    apply forEachHeader_lookup in Hv as [Hv|(_ & j & h & Hj & Hh & _)].
    + by rewrite lookup_singleton_ne in Hv.
    + eauto.
Qed.

(** X20: the chart data is empty exactly when no model is loaded or the
    model has no rows. *)
Theorem chart_empty_iff (x : option (ExcelData num)) :
  getChartData Number_toString x = [] ↔ x = None ∨ ∃ m, x = Some m ∧ rows m = [].
Proof.
  destruct x as [m|]; simpl; [|by split; [left|]].
  case_decide as Hlen.
  - apply length_zero_iff_nil in Hlen. split; [|done]. right. eauto.
  - split.
    + intros H. destruct (rows m); [done|]. by simpl in H.
    + intros [|(m' & ? & Hm')]; [done|]. simplify_eq. by rewrite Hm' in Hlen.
Qed.

(** X21: the chart data depends on the first ten rows only: dropping
    the rows after the tenth leaves it unchanged. *)
Theorem chart_reads_first_ten_rows m :
  getChartData Number_toString (Some m)
  = getChartData Number_toString
      (Some {| headers := headers m; rows := take 10 (rows m) |}).
Proof.
  unfold getChartData. simpl. rewrite length_take.
  case_decide as H1; case_decide as H2; try done; try lia.
  by rewrite take_take.
Qed.


Lemma forEachHeaderKeys_elem (hs : row num) (i : nat) r (created : list string) k :
  k ∈ forEachHeaderKeys Number_toString hs i r created ↔
  k ∈ created
  ∨ (k ≠ "__proto__"
     ∧ ∃ (j : nat) h, hs !! j = Some (Some h) ∧ ToString Number_toString h = k
                      ∧ typeof (get r (i + j)) = TNumber).
Proof.
  revert i created. induction hs as [|x hs IH]; intros i created.
  - simpl. split; [by left|]. by intros [?|(_ & j & h & ? & _)].
  - assert (∀ c, k ∈ forEachHeaderKeys Number_toString hs (S i) r c ↔
                 k ∈ c ∨ (k ≠ "__proto__"
                   ∧ ∃ (j : nat) h, (x :: hs) !! S j = Some (Some h)
                       ∧ ToString Number_toString h = k
                       ∧ typeof (get r (i + S j)) = TNumber)) as IH'.
    { intros c. rewrite IH. split; (intros [?|(? & j & h & ? & ? & ?)]; [by left|right]);
        (split; [done|]); exists j, h;
        [replace (i + S j)%nat with (S i + j)%nat by lia
        |replace (S i + j)%nat with (i + S j)%nat by lia]; done. }
    destruct x as [h0|]; simpl; rewrite IH'.
    + split.
      * intros [Hk|(Hp & j & h & Hj & Hh & Hn)].
        -- case_decide as Hnum; [|by left]. unfold assignKey in Hk.
           case_decide; [by left|]. case_decide; [by left|].
           apply elem_of_app in Hk as [Hk|Hk%list_elem_of_singleton]; [by left|].
           right. split; [by subst|]. exists 0%nat, h0. rewrite Nat.add_0_r. done.
        -- right. split; [done|]. by exists (S j), h.
      * intros [Hk|(Hp & [|j] & h & Hj & Hh & Hn)].
        -- left. case_decide; [|done]. unfold assignKey.
           case_decide; [done|]. case_decide; [done|]. apply elem_of_app. by left.
        -- left. simpl in Hj. simplify_eq. rewrite Nat.add_0_r in Hn.
           rewrite decide_True by done. unfold assignKey.
           rewrite decide_False by done. case_decide; [done|].
           apply elem_of_app. right. by apply list_elem_of_singleton.
        -- right. split; [done|]. by exists j, h.
    + split.
      * intros [Hk|(Hp & j & h & Hj & Hh & Hn)]; [by left|].
        right. split; [done|]. by exists (S j), h.
      * intros [Hk|(Hp & [|j] & h & Hj & Hh & Hn)]; [by left|done|].
        right. split; [done|]. by exists j, h.
Qed.

Lemma forEachHeaderKeys_NoDup (hs : row num) (i : nat) r (created : list string) :
  NoDup created → NoDup (forEachHeaderKeys Number_toString hs i r created).
Proof.
  revert i created. induction hs as [|[h|] hs IH]; intros i created H; simpl; [done|..].
  - apply IH. case_decide; [|done]. unfold assignKey.
    case_decide; [done|]. case_decide; [done|].
    apply NoDup_app. split; [done|]. split; [|apply NoDup_singleton].
    intros x Hx ->%list_elem_of_singleton. done.
  - by apply IH.
Qed.

Lemma forEachHeader_numeric (hs : row num) (i : nat) r (obj : gmap string (cell num))
    (j : nat) (h : cell num) :
  hs !! j = Some (Some h) →
  ToString Number_toString h ≠ "__proto__" →
  typeof (get r (i + j)) = TNumber →
  is_Some (forEachHeader Number_toString hs i r obj !! ToString Number_toString h).
Proof.
  revert i j obj. induction hs as [|x hs IH]; intros i j obj Hj Hp Hn; [done|].
  destruct j as [|j].
  - simpl in Hj. simplify_eq. simpl. rewrite Nat.add_0_r in Hn.
    rewrite decide_True by done. apply forEachHeader_keeps. unfold assign.
    rewrite decide_False by done. by rewrite lookup_insert_eq.
  - simpl in Hj. replace (i + S j)%nat with (S i + j)%nat in Hn by lia.
    destruct x; simpl; by apply (IH (S i) j).
Qed.

Lemma chartPoint_keys (hs : row num) (index : nat) r k :
  is_Some (chartPoint Number_toString hs index r !! k)
  ↔ k ∈ chartPointKeys Number_toString hs r.
Proof.
  unfold chartPoint, chartPointKeys. rewrite forEachHeaderKeys_elem. split.
  - intros [v Hv]. destruct (decide (k = "name")) as [->|Hk]; [left; by left|].
    right. split.
    + intros ->.
      rewrite forEachHeader_proto in Hv; [done|].
      by apply lookup_singleton_ne.
    + apply forEachHeader_lookup in Hv as [Hv|(Ht & j & h & Hj & Hh & Hg)].
      * by rewrite lookup_singleton_ne in Hv.
      * exists j, h. by rewrite Hg.
  - intros [->%list_elem_of_singleton|(Hp & j & h & Hj & <- & Hn)].
    + apply forEachHeader_keeps. by rewrite lookup_singleton_eq.
    + by apply (forEachHeader_numeric hs 0 r _ j h).
Qed.


(** X24: the key list the charts take from the first point lists
    exactly the keys that point holds, each once. *)
Theorem first_point_keys_are_own_keys m r (rest : list (row num))
    (keys : list string) (p : gmap string (cell num)) :
  rows m = r :: rest →
  firstPointKeys Number_toString (Some m) = Some keys →
  getChartData Number_toString (Some m) !! 0%nat = Some p →
  NoDup keys ∧ ∀ k, k ∈ keys ↔ is_Some (p !! k).
Proof.
  intros Hrows Hkeys Hp. unfold firstPointKeys in Hkeys. rewrite Hrows in Hkeys.
  simplify_eq. apply getChartData_lookup in Hp as (r' & Hr' & _ & ->).
  rewrite Hrows in Hr'. simplify_eq/=. split.
  - rewrite Object_keys_Permutation. apply forEachHeaderKeys_NoDup.
    apply NoDup_singleton.
  - intros k. rewrite Object_keys_Permutation. symmetry. apply chartPoint_keys.
Qed.

Lemma seriesKeys_elem m r (rest : list (row num)) k :
  rows m = r :: rest →
  k ∈ seriesKeys Number_toString (Some m) ↔
  k ≠ "name" ∧ k ≠ "__proto__"
  ∧ ∃ (j : nat) h, headers m !! j = Some (Some h) ∧ ToString Number_toString h = k
                   ∧ typeof (get r j) = TNumber.
Proof.
  intros Hrows. unfold seriesKeys, firstPointKeys. rewrite Hrows.
  rewrite list_elem_of_filter, Object_keys_Permutation.
  unfold chartPointKeys. rewrite forEachHeaderKeys_elem. split.
  - intros [Hn [Hk%list_elem_of_singleton|(Hp & j & h & Hj & Hh & Ht)]]; [done|].
    split; [done|]. split; [done|]. by exists j, h.
  - intros (Hn & Hp & j & h & Hj & Hh & Ht). split; [done|]. right.
    split; [done|]. by exists j, h.
Qed.

(** X25: the bar and line charts draw one series per key, without
    repetition, and a key is a series exactly when it is neither [name]
    nor [__proto__] and heads a column whose cell in the first row is
    numeric; a column that is numeric only in later rows gets no
    series. *)
Theorem series_keys_spec m r (rest : list (row num)) :
  rows m = r :: rest →
  NoDup (seriesKeys Number_toString (Some m))
  ∧ ∀ k, k ∈ seriesKeys Number_toString (Some m) ↔
         k ≠ "name" ∧ k ≠ "__proto__"
         ∧ ∃ (j : nat) h, headers m !! j = Some (Some h)
                          ∧ ToString Number_toString h = k
                          ∧ typeof (get r j) = TNumber.
Proof.
  intros Hrows. split; [|intros k; by apply (seriesKeys_elem m r rest)].
  unfold seriesKeys, firstPointKeys. rewrite Hrows. apply NoDup_filter.
  rewrite Object_keys_Permutation. apply forEachHeaderKeys_NoDup. apply NoDup_singleton.
Qed.

(** X26: when the first row has no numeric cell no series is drawn,
    whatever the later rows hold, although the chart data still has a
    point for each of the first ten rows. *)
Theorem no_series_without_numeric_first_row (hs : row num) r (rest : list (row num)) :
  (∀ j : nat, typeof (get r j) ≠ TNumber) →
  seriesKeys Number_toString (Some {| headers := hs; rows := r :: rest |}) = []
  ∧ length (getChartData Number_toString (Some {| headers := hs; rows := r :: rest |}))
    = min 10 (S (length rest)).
Proof.
  intros Hnone. split.
  - apply elem_of_nil_inv. intros k Hk.
    apply (seriesKeys_elem {| headers := hs; rows := r :: rest |} r rest) in Hk; [|done].
    destruct Hk as (_ & _ & j & h & _ & _ & Ht). by apply (Hnone j).
  - apply (getChartData_length Number_toString).
Qed.

(** X27: every series gets a colour of the five-colour palette (the
    palette index is never out of range), and the colours repeat with
    period five. *)
Theorem series_colours (x : option (ExcelData num)) (i : nat) :
  length (series Number_toString x) = length (seriesKeys Number_toString x)
  ∧ (∀ key fill, series Number_toString x !! i = Some (key, fill) →
       seriesKeys Number_toString x !! i = Some key
       ∧ ∃ c, fill = Some c ∧ c ∈ COLORS)
  ∧ color (i + 5) = color i.
Proof.
  unfold series. split; [apply length_imap|]. split.
  - intros key fill H. rewrite list_lookup_imap in H.
    destruct (seriesKeys Number_toString x !! i) as [k|]; simplify_eq/=.
    split; [done|]. destruct (color_is_Some i) as (c & Hc & Hin). by exists c.
  - unfold color. change (length COLORS) with 5%nat.
    change (i + 5)%nat with (i + 1 * 5)%nat. by rewrite Nat.Div0.mod_add.
Qed.

(** X28: the pie chart has a data key exactly when the charts are
    rendered; the key is never empty and never [name]: it is the first
    series key, or the fallback [value] when there is no series or the
    first series key is the empty string. *)
Theorem pie_key_spec (x : option (ExcelData num)) :
  (pieDataKey Number_toString x = None ↔ firstPointKeys Number_toString x = None)
  ∧ ∀ k, pieDataKey Number_toString x = Some k →
         k ≠ "" ∧ k ≠ "name"
         ∧ (seriesKeys Number_toString x !! 0%nat = Some k
            ∨ (k = "value"
               ∧ (seriesKeys Number_toString x = []
                  ∨ seriesKeys Number_toString x !! 0%nat = Some ""))).
Proof.
  unfold pieDataKey, seriesKeys.
  destruct (firstPointKeys Number_toString x) as [keys|]; [|by split].
  rewrite find_head_filter, head_lookup. split.
  - split; [|done]. destruct (_ !! 0%nat) as [k|]; [|done]. by destruct (truthy k).
  - intros k Hk. destruct (filter _ keys) as [|k0 l] eqn:E; simpl in Hk.
    + simplify_eq. repeat split; [done..|]. right. split; [done|by left].
    + assert (k0 ≠ "name") as Hk0.
      { assert (k0 ∈ filter (λ key, key ≠ "name") keys) as Hin by (rewrite E; left).
        by apply list_elem_of_filter in Hin as [? _]. }
      destruct (truthy k0) eqn:Ht; simplify_eq.
      * split; [by apply truthy_inv|]. split; [done|]. by left.
      * repeat split; [done..|]. right. split; [done|]. right. simpl. f_equal.
        unfold truthy in Ht. apply negb_false_iff in Ht.
        by apply bool_decide_eq_true in Ht.
Qed.

(** X29: the pie chart gets min(5, number of rows) sectors, each with a
    colour of the palette. *)
Theorem pie_sectors m :
  length (pieData Number_toString (Some m)) = min 5 (length (rows m))
  ∧ length (pieCells Number_toString (Some m)) = min 5 (length (rows m))
  ∧ ∀ (i : nat) fill, pieCells Number_toString (Some m) !! i = Some fill →
                      ∃ c, fill = Some c ∧ c ∈ COLORS.
Proof.
  assert (length (pieData Number_toString (Some m)) = min 5 (length (rows m))) as Hlen.
  { unfold pieData. rewrite length_take, (getChartData_length Number_toString). lia. }
  split; [done|]. unfold pieCells. split; [by rewrite length_imap|].
  intros i fill H. rewrite list_lookup_imap in H.
  destruct (pieData Number_toString (Some m) !! i); simplify_eq/=.
  destruct (color_is_Some i) as (c & Hc & Hin). by exists c.
Qed.

End Chart.

(** * The further properties on the concrete instance *)

Lemma drop_reads_first_spreadsheet_witness :
  readers (handleDrop ([reportPdf] ++ salesFile :: []) (@initialState Z))
  = (readers (@initialState Z) ++ [salesFile])%list
  ∧ toasts (handleDrop ([reportPdf] ++ salesFile :: []) (@initialState Z))
    = toasts (@initialState Z)
  ∧ isDragging (handleDrop ([reportPdf] ++ salesFile :: []) (@initialState Z)) = false
  ∧ excelData (handleDrop ([reportPdf] ++ salesFile :: []) (@initialState Z))
    = excelData (@initialState Z)
  ∧ fileName (handleDrop ([reportPdf] ++ salesFile :: []) (@initialState Z))
    = fileName (@initialState Z)
  ∧ commandHistory (handleDrop ([reportPdf] ++ salesFile :: []) (@initialState Z))
    = commandHistory (@initialState Z).
Proof.
  apply (drop_reads_first_spreadsheet [reportPdf] [] salesFile initialState).
  - intros g Hg. apply list_elem_of_singleton in Hg. subst g. vm_compute. reflexivity.
  - vm_compute. reflexivity.
Defined.

Lemma chart_after_load_witness :
  length (getChartData int_toString
            (excelData (reader_onload salesFile (JsonData salesSheet) initialState)))
  = min 10 (length salesSheet - 1).
Proof.
  apply (chart_after_load int_toString salesFile salesSheet initialState).
  simpl. lia.
Defined.

Lemma drop_then_load_witness :
  run int_toString
    [Drop ([reportPdf] ++ salesFile :: []);
     ReaderLoad 0 (JsonData ([str "Name"; str "Sales"]
                             :: [ [str "Alice"; number 10]; [str "Bob"; str "n/a"] ]))]
    initialState
  = {| excelData :=
         Some {| headers := [str "Name"; str "Sales"];
                 rows := [ [str "Alice"; number 10]; [str "Bob"; str "n/a"] ] |};
       fileName := file_name salesFile; isDragging := false; command := "";
       commandHistory := []; isProcessing := false;
       toasts := [toastLoaded salesFile]; readers := []; timers := [] |}.
Proof.
  apply (drop_then_load int_toString [reportPdf] [] salesFile).
  - intros g Hg. apply list_elem_of_singleton in Hg. subst g. vm_compute. reflexivity.
  - vm_compute. reflexivity.
Defined.

Lemma execute_accepts_witness :
  isProcessing (executeCommand typedState) = true
  ∧ timers (executeCommand typedState)
    = (timers typedState ++ [(command typedState, salesModel)])%list
  ∧ command (executeCommand typedState) = command typedState
  ∧ commandHistory (executeCommand typedState) = commandHistory typedState
  ∧ toasts (executeCommand typedState) = toasts typedState
  ∧ excelData (executeCommand typedState) = excelData typedState.
Proof.
  apply (execute_accepts typedState salesModel).
  - reflexivity.
  - vm_compute. discriminate.
Defined.

Lemma completion_effects_witness :
  command (runCommand int_toString "Покажи тренды" 1000 1001 idleState) = ""
  ∧ isProcessing (runCommand int_toString "Покажи тренды" 1000 1001 idleState) = false
  ∧ toasts (runCommand int_toString "Покажи тренды" 1000 1001 idleState)
    = (toasts idleState ++ [toastDone])%list
  ∧ variant toastDone = None
  ∧ excelData (runCommand int_toString "Покажи тренды" 1000 1001 idleState)
    = excelData idleState
  ∧ fileName (runCommand int_toString "Покажи тренды" 1000 1001 idleState)
    = fileName idleState
  ∧ readers (runCommand int_toString "Покажи тренды" 1000 1001 idleState)
    = readers idleState.
Proof.
  apply (completion_effects int_toString idleState salesModel "Покажи тренды" 1000 1001).
  - reflexivity.
  - reflexivity.
  - vm_compute. discriminate.
Defined.

Lemma close_in_flight_witness :
  excelData (timerFires int_toString 1000 1001
               (closeDataset (executeCommand (setCommand "Покажи тренды" idleState))))
  = None
  ∧ fileName (timerFires int_toString 1000 1001
                (closeDataset (executeCommand (setCommand "Покажи тренды" idleState))))
    = ""
  ∧ commandHistory (timerFires int_toString 1000 1001
                      (closeDataset (executeCommand (setCommand "Покажи тренды" idleState))))
    = [newEntry int_toString "Покажи тренды" salesModel 1000 1001].
Proof.
  apply (close_in_flight int_toString idleState salesModel "Покажи тренды" 1000 1001).
  - reflexivity.
  - reflexivity.
  - vm_compute. discriminate.
Defined.

Lemma entry_reports_model_at_submission_witness :
  excelData (timerFires int_toString 1000 1001
               (reader_onload reportPdf (JsonData ([str "name"] :: [ [number 7] ]))
                  (executeCommand (setCommand "Покажи тренды" idleState))))
  = Some {| headers := [str "name"]; rows := [ [number 7] ] |}
  ∧ commandHistory (timerFires int_toString 1000 1001
                      (reader_onload reportPdf (JsonData ([str "name"] :: [ [number 7] ]))
                         (executeCommand (setCommand "Покажи тренды" idleState))))
    = newEntry int_toString "Покажи тренды" salesModel 1000 1001
        :: commandHistory idleState.
Proof.
  apply (entry_reports_model_at_submission int_toString idleState salesModel
           "Покажи тренды" 1000 1001 reportPdf [str "name"] [ [number 7] ]).
  - reflexivity.
  - reflexivity.
  - vm_compute. discriminate.
Defined.

Lemma double_submit_gives_one_entry_witness :
  commandHistory
    (run int_toString
       [Change "Покажи тренды"; KeyDown "Enter"; KeyDown "Enter"; Click;
        TimerExpires 1000 1001; TimerExpires 2000 2001] idleState)
  = newEntry int_toString "Покажи тренды" salesModel 1000 1001 :: commandHistory idleState
  ∧ timers
      (run int_toString
         [Change "Покажи тренды"; KeyDown "Enter"; KeyDown "Enter"; Click;
          TimerExpires 1000 1001; TimerExpires 2000 2001] idleState) = [].
Proof.
  apply (double_submit_gives_one_entry int_toString idleState salesModel
           "Покажи тренды" 1000 1001 2000 2001).
  - reflexivity.
  - reflexivity.
  - reflexivity.
  - vm_compute. discriminate.
Defined.

Lemma history_commands_nonblank_witness :
  entry_command (newEntry int_toString "Покажи тренды" salesModel 1000 1001) ≠ "".
Proof.
  apply (history_commands_nonblank int_toString salesSession
           (newEntry int_toString "Покажи тренды" salesModel 1000 1001)).
  vm_compute. left.
Defined.

Lemma empty_session_unnamed_witness :
  fileName (run int_toString (salesSession ++ [Close]) initialState) = "".
Proof.
  apply (empty_session_unnamed int_toString (salesSession ++ [Close])).
  vm_compute. reflexivity.
Defined.

Lemma model_changes_only_by_load_or_close_witness :
  excelData (step int_toString Click typedState) = excelData typedState
  ∧ fileName (step int_toString Click typedState) = fileName typedState.
Proof.
  apply (model_changes_only_by_load_or_close int_toString Click typedState).
  - intros i j. discriminate.
  - discriminate.
Defined.

Lemma second_load_keeps_history_witness :
  run int_toString
    [FileSelect [salesFile]; FileSelect [reportPdf];
     ReaderLoad 0 (JsonData ([str "Name"; str "Sales"] :: [ [str "Alice"; number 10] ]));
     Change "Покажи тренды"; KeyDown "Enter"; TimerExpires 1000 1001;
     ReaderLoad 0 (JsonData ([str "name"] :: [ [number 7] ]))] initialState
  = {| excelData := Some {| headers := [str "name"]; rows := [ [number 7] ] |};
       fileName := file_name reportPdf; isDragging := false; command := "";
       commandHistory :=
         [newEntry int_toString "Покажи тренды"
            {| headers := [str "Name"; str "Sales"];
               rows := [ [str "Alice"; number 10] ] |} 1000 1001];
       isProcessing := false;
       toasts := [toastLoaded salesFile; toastDone; toastLoaded reportPdf];
       readers := []; timers := [] |}.
Proof.
  apply (second_load_keeps_history int_toString salesFile reportPdf
           [str "Name"; str "Sales"] [str "name"]
           [ [str "Alice"; number 10] ] [ [number 7] ] "Покажи тренды" 1000 1001).
  vm_compute. discriminate.
Defined.

Lemma point_keys_witness :
  is_Some (({[ "name" := CString "Строка 1"; "Sales" := CNumber 10%Z ]}
            : gmap string (cell Z)) !! "name")
  ∧ ({[ "name" := CString "Строка 1"; "Sales" := CNumber 10%Z ]}
     : gmap string (cell Z)) !! "__proto__" = None
  ∧ ∀ k, is_Some (({[ "name" := CString "Строка 1"; "Sales" := CNumber 10%Z ]}
                   : gmap string (cell Z)) !! k) →
         k = "name" ∨ ∃ (j : nat) h, headers salesModel !! j = Some (Some h)
                                     ∧ ToString int_toString h = k.
Proof.
  apply (point_keys int_toString salesModel 0
           {[ "name" := CString "Строка 1"; "Sales" := CNumber 10%Z ]}).
  vm_compute. reflexivity.
Defined.

Lemma last_numeric_column_wins_witness :
  ∃ p, getChartData int_toString (Some yearModel) !! 1%nat = Some p
     ∧ p !! ToString int_toString (CString "2021")
       = Some (get [str "South"; number 5; number 6; number 11; number 1] 4).
Proof.
  apply (last_numeric_column_wins int_toString yearModel 1
           [str "South"; number 5; number 6; number 11; number 1] 4 (CString "2021")).
  - reflexivity.
  - lia.
  - reflexivity.
  - simpl. discriminate.
  - reflexivity.
  - intros j' h' Hlt Hj'. apply lookup_lt_Some in Hj'. simpl in Hj'. lia.
Defined.

Lemma first_point_keys_are_own_keys_witness :
  NoDup ["name"; "Sales"]
  ∧ ∀ k, k ∈ ["name"; "Sales"]
         ↔ is_Some (({[ "name" := CString "Строка 1"; "Sales" := CNumber 10%Z ]}
                     : gmap string (cell Z)) !! k).
Proof.
  apply (first_point_keys_are_own_keys int_toString salesModel
           [str "Alice"; number 10] [ [str "Bob"; str "n/a"] ] ["name"; "Sales"]
           {[ "name" := CString "Строка 1"; "Sales" := CNumber 10%Z ]}).
  - reflexivity.
  - vm_compute. reflexivity.
  - vm_compute. reflexivity.
Defined.

Lemma series_keys_spec_witness :
  NoDup (seriesKeys int_toString (Some yearModel))
  ∧ ∀ k, k ∈ seriesKeys int_toString (Some yearModel) ↔
         k ≠ "name" ∧ k ≠ "__proto__"
         ∧ ∃ (j : nat) h, headers yearModel !! j = Some (Some h)
                          ∧ ToString int_toString h = k
                          ∧ typeof (get [str "North"; number 3; number 4; number 7; str "x"] j)
                            = TNumber.
Proof.
  apply (series_keys_spec int_toString yearModel
           [str "North"; number 3; number 4; number 7; str "x"]
           [ [str "South"; number 5; number 6; number 11; number 1] ]).
  reflexivity.
Defined.

Lemma no_series_without_numeric_first_row_witness :
  seriesKeys int_toString
    (Some {| headers := [str "Name"; str "Sales"];
             rows := [str "Bob"; str "n/a"] :: [ [str "Alice"; number 10] ] |}) = []
  ∧ length (getChartData int_toString
              (Some {| headers := [str "Name"; str "Sales"];
                       rows := [str "Bob"; str "n/a"] :: [ [str "Alice"; number 10] ] |}))
    = min 10 (S (length [ [str "Alice"; number 10] ])).
Proof.
  apply (no_series_without_numeric_first_row int_toString
           [str "Name"; str "Sales"] [str "Bob"; str "n/a"] [ [str "Alice"; number 10] ]).
  intros [|[|j]]; simpl; discriminate.
Defined.

(** * The charts of the year model, evaluated *)

Example year_model_charts :
  firstPointKeys int_toString (Some yearModel) = Some ["2020"; "2021"; "name"; "Total"]
  ∧ series int_toString (Some yearModel)
    = [("2020", Some "#9b87f5"); ("2021", Some "#0EA5E9"); ("Total", Some "#F97316")]
  ∧ pieDataKey int_toString (Some yearModel) = Some "2020"
  ∧ pieCells int_toString (Some yearModel) = [Some "#9b87f5"; Some "#0EA5E9"].
Proof. vm_compute. auto. Qed.

Example array_index_examples :
  arrayIndex "0" = Some 0%N
  ∧ arrayIndex "2020" = Some 2020%N
  ∧ arrayIndex "007" = None
  ∧ arrayIndex "4294967294" = Some 4294967294%N
  ∧ arrayIndex "4294967295" = None
  ∧ arrayIndex "1.5" = None
  ∧ Object_keys ["name"; "b"; "2021"; "a"; "10"; "01"]
    = ["10"; "2021"; "name"; "b"; "a"; "01"].
Proof. vm_compute. repeat split. Qed.
